(** * bcc::Script: the compilation driver's aggregate root

    A shallow embedding of [lib/ExecutionEngine/Script.h].  The header defines
    the [Script] class, its two enumerations, the inline members (constructor,
    cache path derivation, [markExternalSymbol], [setError], [getError]) and
    declares the remaining members, whose bodies live in [Script.cpp]; those
    are modelled here from the design specification and marked as such.

    Conventions.
    - [int] is modelled as [Z]; the error members only copy and compare codes,
      so no arithmetic (and no wrap-around) is involved.
    - An owning pointer is modelled by the object it owns, a null pointer by
      [None].
    - The build is the one with [USE_CACHE] enabled (the [Cached] status, the
      cache strings and the path members exist only there); the choice between
      [USE_OLD_JIT] and [USE_MCJIT] and the presence of [NDEBUG] are explicit
      parameters of the members they affect. *)

From Stdlib Require Import ZArith List String Ascii Bool Lia.
From Stdlib Require Import Strings.Byte.
Import ListNotations.

Local Open Scope string_scope.

(** ** C types *)

Definition int := Z.

(** [void *] and code addresses. *)
Definition ptr := Z.
Definition NULL : ptr := 0%Z.

(** [BCCSymbolLookupFn]: called with the context and the unresolved name. *)
Definition BCCSymbolLookupFn := ptr -> string -> ptr.

(** ** Enumerations *)

Module ScriptStatus.
Inductive StatusType := Unknown | Compiled | Cached.
End ScriptStatus.

Module ScriptObject.
Inductive ObjectType := Unknown | Relocatable | SharedObject | Executable.
End ScriptObject.

(** Which JIT the library is configured with ([#if USE_OLD_JIT] /
    [#elif USE_MCJIT]). *)
Inductive JitBackend := USE_OLD_JIT | USE_MCJIT.

(** ** Collaborating classes

    [SourceInfo], [ScriptCompiled] and [ScriptCached] are only forward
    declared by the header. *)

(** Modelled from the spec: the payload of a source (class [SourceInfo] is
    not defined in the header): raw bitcode bytes with their resource name, an
    in-memory program handle, or a file path. *)
Inductive SourcePayload :=
| Bitcode (resName : string) (bitcode : list byte)
| ModuleHandle (module : ptr)
| FilePath (path : string).

(** Modelled from the spec: class [SourceInfo], a payload tagged with the
    ingestion flags, which are passed through uninterpreted. *)
Record SourceInfo := {
  sourcePayload : SourcePayload;
  sourceFlags : Z
}.

(** Modelled from the spec: the metadata a compiled unit advertises (the
    classes holding it are not defined in the header): exported variables,
    exported functions, per-element kernels, pragmas as key/value pairs,
    function descriptors (name and address) and object-slot indices. *)
Record ExportTable := {
  exportVars : list (string * ptr);
  exportFuncs : list (string * ptr);
  exportForEach : list (string * ptr);
  pragmas : list (string * string);
  funcInfos : list (string * ptr);
  objectSlots : list Z
}.

(** Modelled from the spec: class [ScriptCompiled], the in-memory compiled
    representation: its export table and the raw linkable bytes. *)
Record ScriptCompiled := {
  compiledExports : ExportTable;
  compiledELF : list byte
}.

(** Modelled from the spec: class [ScriptCached], the representation loaded
    from a cache entry. *)
Record ScriptCached := {
  cachedExports : ExportTable;
  cachedELF : list byte
}.

(** The anonymous union of [mCompiled] and [mCached]: at most one member is
    active.  The constructor initialises neither, which is [Indeterminate]. *)
Inductive CompiledUnit :=
| Indeterminate
| mCompiled (compiled : ScriptCompiled)
| mCached (cached : ScriptCached).

(** ** The Script class *)

Record Script := {
  mErrorCode : int;
  mStatus : ScriptStatus.StatusType;
  mObjectType : ScriptObject.ObjectType;
  mUnit : CompiledUnit;
  mCacheDir : string;
  mCacheName : string;
  mIsContextSlotNotAvail : bool;
  (* mSourceList[0] (main source), mSourceList[1] (library source) *)
  mSourceList : list (option SourceInfo);
  mUserDefinedExternalSymbols : list string;
  mpExtSymbolLookupFn : option BCCSymbolLookupFn;
  mpExtSymbolLookupFnContext : ptr
}.

(** Assignment to one member, the others kept. *)
Definition set_mErrorCode (v : int) (s : Script) : Script :=
  {| mErrorCode := v; mStatus := mStatus s; mObjectType := mObjectType s;
     mUnit := mUnit s; mCacheDir := mCacheDir s; mCacheName := mCacheName s;
     mIsContextSlotNotAvail := mIsContextSlotNotAvail s;
     mSourceList := mSourceList s;
     mUserDefinedExternalSymbols := mUserDefinedExternalSymbols s;
     mpExtSymbolLookupFn := mpExtSymbolLookupFn s;
     mpExtSymbolLookupFnContext := mpExtSymbolLookupFnContext s |}.

Definition set_mUserDefinedExternalSymbols (v : list string) (s : Script)
  : Script :=
  {| mErrorCode := mErrorCode s; mStatus := mStatus s;
     mObjectType := mObjectType s;
     mUnit := mUnit s; mCacheDir := mCacheDir s; mCacheName := mCacheName s;
     mIsContextSlotNotAvail := mIsContextSlotNotAvail s;
     mSourceList := mSourceList s;
     mUserDefinedExternalSymbols := v;
     mpExtSymbolLookupFn := mpExtSymbolLookupFn s;
     mpExtSymbolLookupFnContext := mpExtSymbolLookupFnContext s |}.

Definition set_mStatus (v : ScriptStatus.StatusType) (s : Script) : Script :=
  {| mErrorCode := mErrorCode s; mStatus := v; mObjectType := mObjectType s;
     mUnit := mUnit s; mCacheDir := mCacheDir s; mCacheName := mCacheName s;
     mIsContextSlotNotAvail := mIsContextSlotNotAvail s;
     mSourceList := mSourceList s;
     mUserDefinedExternalSymbols := mUserDefinedExternalSymbols s;
     mpExtSymbolLookupFn := mpExtSymbolLookupFn s;
     mpExtSymbolLookupFnContext := mpExtSymbolLookupFnContext s |}.

Definition set_mObjectType (v : ScriptObject.ObjectType) (s : Script)
  : Script :=
  {| mErrorCode := mErrorCode s; mStatus := mStatus s; mObjectType := v;
     mUnit := mUnit s; mCacheDir := mCacheDir s; mCacheName := mCacheName s;
     mIsContextSlotNotAvail := mIsContextSlotNotAvail s;
     mSourceList := mSourceList s;
     mUserDefinedExternalSymbols := mUserDefinedExternalSymbols s;
     mpExtSymbolLookupFn := mpExtSymbolLookupFn s;
     mpExtSymbolLookupFnContext := mpExtSymbolLookupFnContext s |}.

Definition set_mUnit (v : CompiledUnit) (s : Script) : Script :=
  {| mErrorCode := mErrorCode s; mStatus := mStatus s;
     mObjectType := mObjectType s;
     mUnit := v; mCacheDir := mCacheDir s; mCacheName := mCacheName s;
     mIsContextSlotNotAvail := mIsContextSlotNotAvail s;
     mSourceList := mSourceList s;
     mUserDefinedExternalSymbols := mUserDefinedExternalSymbols s;
     mpExtSymbolLookupFn := mpExtSymbolLookupFn s;
     mpExtSymbolLookupFnContext := mpExtSymbolLookupFnContext s |}.

Definition set_mCacheDir (v : string) (s : Script) : Script :=
  {| mErrorCode := mErrorCode s; mStatus := mStatus s;
     mObjectType := mObjectType s;
     mUnit := mUnit s; mCacheDir := v; mCacheName := mCacheName s;
     mIsContextSlotNotAvail := mIsContextSlotNotAvail s;
     mSourceList := mSourceList s;
     mUserDefinedExternalSymbols := mUserDefinedExternalSymbols s;
     mpExtSymbolLookupFn := mpExtSymbolLookupFn s;
     mpExtSymbolLookupFnContext := mpExtSymbolLookupFnContext s |}.

Definition set_mCacheName (v : string) (s : Script) : Script :=
  {| mErrorCode := mErrorCode s; mStatus := mStatus s;
     mObjectType := mObjectType s;
     mUnit := mUnit s; mCacheDir := mCacheDir s; mCacheName := v;
     mIsContextSlotNotAvail := mIsContextSlotNotAvail s;
     mSourceList := mSourceList s;
     mUserDefinedExternalSymbols := mUserDefinedExternalSymbols s;
     mpExtSymbolLookupFn := mpExtSymbolLookupFn s;
     mpExtSymbolLookupFnContext := mpExtSymbolLookupFnContext s |}.

Definition set_mSourceList (v : list (option SourceInfo)) (s : Script)
  : Script :=
  {| mErrorCode := mErrorCode s; mStatus := mStatus s;
     mObjectType := mObjectType s;
     mUnit := mUnit s; mCacheDir := mCacheDir s; mCacheName := mCacheName s;
     mIsContextSlotNotAvail := mIsContextSlotNotAvail s;
     mSourceList := v;
     mUserDefinedExternalSymbols := mUserDefinedExternalSymbols s;
     mpExtSymbolLookupFn := mpExtSymbolLookupFn s;
     mpExtSymbolLookupFnContext := mpExtSymbolLookupFnContext s |}.

Definition set_mpExtSymbolLookup (fn : option BCCSymbolLookupFn)
  (context : ptr) (s : Script) : Script :=
  {| mErrorCode := mErrorCode s; mStatus := mStatus s;
     mObjectType := mObjectType s;
     mUnit := mUnit s; mCacheDir := mCacheDir s; mCacheName := mCacheName s;
     mIsContextSlotNotAvail := mIsContextSlotNotAvail s;
     mSourceList := mSourceList s;
     mUserDefinedExternalSymbols := mUserDefinedExternalSymbols s;
     mpExtSymbolLookupFn := fn;
     mpExtSymbolLookupFnContext := context |}.

(** ** Results of members that may trip an assertion *)

Inductive outcome (A : Type) :=
| Returns (a : A)
| AssertionFailed (message : string).
Arguments Returns {A} a.
Arguments AssertionFailed {A} message.

(** [assert(false && message)]: aborts unless [NDEBUG] compiles it away. *)
Definition assert_false {A : Type} (NDEBUG : bool) (message : string)
  (continue : A) : outcome A :=
  if NDEBUG then Returns continue else AssertionFailed message.

(** [std::string::append] on the result of a call. *)
Definition append_to (suffix : string) (r : outcome string) : outcome string :=
  match r with
  | Returns path => Returns (path ++ suffix)
  | AssertionFailed m => AssertionFailed m
  end.

(** ** Cache path derivation *)

Definition getCachedObjectPath (jit : JitBackend) (NDEBUG : bool) (s : Script)
  : outcome string :=
  match jit with
  | USE_OLD_JIT => Returns ((mCacheDir s ++ mCacheName s) ++ ".jit-image")
  | USE_MCJIT =>
      let objPath := mCacheDir s ++ mCacheName s in
      (* Append suffix depends on the object type *)
      match mObjectType s with
      | ScriptObject.Relocatable
      | ScriptObject.Executable => Returns (objPath ++ ".o")
      | ScriptObject.SharedObject => Returns (objPath ++ ".so")
      | ScriptObject.Unknown => assert_false NDEBUG "Unknown object type!" objPath
      end
  end.

Definition getCacheInfoPath (jit : JitBackend) (NDEBUG : bool) (s : Script)
  : outcome string :=
  match jit with
  | USE_OLD_JIT => append_to ".oBCC" (getCachedObjectPath jit NDEBUG s)
  | USE_MCJIT => append_to ".info" (getCachedObjectPath jit NDEBUG s)
  end.

(** ** The external-symbol allow-list *)

Definition markExternalSymbol (name : string) (s : Script) : Script :=
  set_mUserDefinedExternalSymbols
    (mUserDefinedExternalSymbols s ++ [name])%list s.

Definition getUserDefinedExternalSymbols (s : Script) : list string :=
  mUserDefinedExternalSymbols s.

(** ** Process-wide state *)

(** Modelled from the spec: [Compiler::GlobalInitialization] (declared in
    [Compiler.h], defined elsewhere): the one-time initialization of the
    backend.  Only its first invocation per process has an effect, recorded
    here as the number of times the initialization proper ran. *)
Record Process := {
  GlobalInitialized : bool;
  backendSetUps : nat
}.

Definition Compiler_GlobalInitialization (p : Process) : Process :=
  if GlobalInitialized p then p
  else {| GlobalInitialized := true; backendSetUps := S (backendSetUps p) |}.

(** ** The cache on disk and the external collaborators *)

Module Reloc.
(** [llvm::Reloc::Model]. *)
Inductive Model := Default | Static | PIC_ | DynamicNoPIC.
End Reloc.

(** Modelled from the spec: the error kinds of the driver (the codes
    themselves come from [bcc/bcc.h]). *)
Inductive ErrorKind :=
| NoError
| InvalidSlot
| SourceUnreadable
| BackendCompileFailure
| CacheWriteFailure
| CacheCorrupt
| LinkFailure
| NotPrepared.

(** Modelled from the spec: [struct CompilerOption] (forward declared by the
    header): the object kind to produce and the relocation model, if any. *)
Record CompilerOption := {
  OutputKind : ScriptObject.ObjectType;
  RelocModelOpt : option Reloc.Model
}.

(** Modelled from the spec: the verdict of the external code-generation
    backend on one compilation. *)
Inductive CompileResult :=
| CompileOk (compiled : ScriptCompiled)
| CompileSourceUnreadable
| CompileRejected.

(** Modelled from the spec: the metadata sidecar of a cache entry: the
    identity of the sources (with their flags), the object kind, and the
    export metadata of the object. *)
Record CacheInfo := {
  infoSources : list (option SourceInfo);
  infoKind : ScriptObject.ObjectType;
  infoExports : ExportTable
}.

(** Modelled from the spec: what a path of the cache directory holds: object
    bytes, or a sidecar that may fail to parse. *)
Inductive File :=
| ObjectFile (bytes : list byte)
| InfoFile (parsed : option CacheInfo).

Definition FileSystem := string -> option File.

Definition writeFile (path : string) (f : File) (fs : FileSystem)
  : FileSystem :=
  fun q => if String.eqb q path then Some f else fs q.

Record World := {
  process : Process;
  files : FileSystem
}.

Definition set_files (fs : FileSystem) (w : World) : World :=
  {| process := process w; files := fs |}.

(** Exact comparison of source identities. *)
Fixpoint bytes_eqb (a b : list byte) : bool :=
  match a, b with
  | [], [] => true
  | x :: a', y :: b' => Byte.eqb x y && bytes_eqb a' b'
  | _, _ => false
  end.

Definition SourcePayload_eqb (a b : SourcePayload) : bool :=
  match a, b with
  | Bitcode n1 b1, Bitcode n2 b2 => String.eqb n1 n2 && bytes_eqb b1 b2
  | ModuleHandle m1, ModuleHandle m2 => Z.eqb m1 m2
  | FilePath p1, FilePath p2 => String.eqb p1 p2
  | _, _ => false
  end.

Definition SourceInfo_eqb (a b : SourceInfo) : bool :=
  SourcePayload_eqb (sourcePayload a) (sourcePayload b)
  && Z.eqb (sourceFlags a) (sourceFlags b).

Definition slot_eqb (a b : option SourceInfo) : bool :=
  match a, b with
  | None, None => true
  | Some x, Some y => SourceInfo_eqb x y
  | _, _ => false
  end.

Fixpoint sources_eqb (a b : list (option SourceInfo)) : bool :=
  match a, b with
  | [], [] => true
  | x :: a', y :: b' => slot_eqb x y && sources_eqb a' b'
  | _, _ => false
  end.

Definition ObjectType_eqb (a b : ScriptObject.ObjectType) : bool :=
  match a, b with
  | ScriptObject.Unknown, ScriptObject.Unknown
  | ScriptObject.Relocatable, ScriptObject.Relocatable
  | ScriptObject.SharedObject, ScriptObject.SharedObject
  | ScriptObject.Executable, ScriptObject.Executable => true
  | _, _ => false
  end.

(** Result of a public operation that can fail. *)
Inductive Result :=
| Success
| Failed (kind : ErrorKind).

(** A Script whose cache members are [D], [N] and [K]. *)
Definition with_cache (D N : string) (K : ScriptObject.ObjectType)
  (s : Script) : Script :=
  set_mObjectType K (set_mCacheName N (set_mCacheDir D s)).

(** The path derivation in the words of the design specification:
    [cacheDir/cacheName] plus the suffix of the kind, and the object path plus
    [.info]. *)
Definition derivePaths_spec (cacheDir cacheName : string)
  (objectKind : ScriptObject.ObjectType) : string * string :=
  let suffix :=
    match objectKind with
    | ScriptObject.SharedObject => ".so"
    | _ => ".o"
    end in
  let objectPath := cacheDir ++ "/" ++ cacheName ++ suffix in
  (objectPath, objectPath ++ ".info").

(** ** Sample inputs

    Concrete values on which the members are evaluated: a process that has
    not initialised the backend yet, the Script its constructor builds when
    the success code is 0, error codes, and collaborators that always refuse
    or always accept. *)

Definition sample_process : Process :=
  {| GlobalInitialized := false; backendSetUps := 0 |}.

Definition sample_script : Script :=
  {| mErrorCode := 0%Z;
     mStatus := ScriptStatus.Unknown;
     mObjectType := ScriptObject.Unknown;
     mUnit := Indeterminate;
     mCacheDir := "";
     mCacheName := "";
     mIsContextSlotNotAvail := false;
     mSourceList := [None; None];
     mUserDefinedExternalSymbols := [];
     mpExtSymbolLookupFn := None;
     mpExtSymbolLookupFnContext := NULL |}.

Definition sample_world : World :=
  {| process := Compiler_GlobalInitialization sample_process;
     files := fun _ => None |}.

Definition sample_error_code (kind : ErrorKind) : int :=
  match kind with
  | NoError => 0
  | InvalidSlot => 1
  | SourceUnreadable => 2
  | BackendCompileFailure => 3
  | CacheWriteFailure => 4
  | CacheCorrupt => 5
  | LinkFailure => 6
  | NotPrepared => 7
  end%Z.

Definition sample_compiled : ScriptCompiled :=
  {| compiledExports :=
       {| exportVars := [("gVar", 4096%Z)];
          exportFuncs := [("root", 8192%Z)];
          exportForEach := [];
          pragmas := [("version", "1")];
          funcInfos := [("root", 8192%Z)];
          objectSlots := [] |};
     compiledELF := [x7f; x45; x4c; x46] |}.

Definition refusing_backend (s : Script) (option : CompilerOption) (flags : Z)
  : CompileResult :=
  CompileRejected.

Definition accepting_backend (s : Script) (option : CompilerOption)
  (flags : Z) : CompileResult :=
  CompileOk sample_compiled.

Definition refusing_linker (relocatable : list byte) (dsoPath : string)
  (flags : Z) : option ScriptCompiled :=
  None.

Definition read_only_storage (path : string) : bool := false.

Definition writable_storage (path : string) : bool := true.

Definition sample_bitcode : list byte := [x42; x43; xc0; xde].

Section ScriptMembers.

(** [BCC_NO_ERROR] comes from [bcc/bcc.h]; its value is immaterial. *)
Variable BCC_NO_ERROR : int.

(** *** Constructor *)

Definition Script_new (p : Process) : Process * Script :=
  (Compiler_GlobalInitialization p,
   {| mErrorCode := BCC_NO_ERROR;
      mStatus := ScriptStatus.Unknown;
      mObjectType := ScriptObject.Unknown;
      mUnit := Indeterminate;
      mCacheDir := "";
      mCacheName := "";
      mIsContextSlotNotAvail := false;
      mSourceList := [None; None];
      mUserDefinedExternalSymbols := [];
      mpExtSymbolLookupFn := None;
      mpExtSymbolLookupFnContext := NULL |}).

(** *** The error accumulator *)

Definition setError (error : int) (s : Script) : Script :=
  if (mErrorCode s =? BCC_NO_ERROR)%Z && negb (error =? BCC_NO_ERROR)%Z
  then set_mErrorCode error s
  else s.

Definition getError (s : Script) : int * Script :=
  let result := mErrorCode s in
  (result, set_mErrorCode BCC_NO_ERROR s).

(** A run of [setError] calls, oldest first. *)
Definition setErrors (errors : list int) (s : Script) : Script :=
  fold_left (fun st error => setError error st) errors s.

(** A run of [markExternalSymbol] calls, oldest first. *)
Definition markExternalSymbols (names : list string) (s : Script) : Script :=
  fold_left (fun st name => markExternalSymbol name st) names s.

(** The code a run of [setError] calls leaves pending when none was: the
    first code of the run other than [BCC_NO_ERROR], and [BCC_NO_ERROR] when
    the run has none. *)
Definition firstFailure (errors : list int) : int :=
  match find (fun error => negb (error =? BCC_NO_ERROR)%Z) errors with
  | Some error => error
  | None => BCC_NO_ERROR
  end.

(** Report-and-read cycles: each run of [setError] calls is followed by one
    [getError]; the codes read are collected, oldest first. *)
Fixpoint reportCycles (runs : list (list int)) (s : Script)
  : list int * Script :=
  match runs with
  | [] => ([], s)
  | run :: rest =>
      let (result, s1) := getError (setErrors run s) in
      let (results, s2) := reportCycles rest s1 in
      (result :: results, s2)
  end.

(** Calls of the two inline mutators, in any interleaving. *)
Inductive InlineCall :=
| DoMarkExternalSymbol (name : string)
| DoSetError (error : int).

Definition doInline (c : InlineCall) (s : Script) : Script :=
  match c with
  | DoMarkExternalSymbol name => markExternalSymbol name s
  | DoSetError error => setError error s
  end.

Definition runInline (calls : list InlineCall) (s : Script) : Script :=
  fold_left (fun st c => doInline c st) calls s.

(** The names marked, and the codes reported, by a sequence of calls. *)
Fixpoint markedNames (calls : list InlineCall) : list string :=
  match calls with
  | [] => []
  | DoMarkExternalSymbol name :: rest => name :: markedNames rest
  | DoSetError _ :: rest => markedNames rest
  end.

Fixpoint reportedErrors (calls : list InlineCall) : list int :=
  match calls with
  | [] => []
  | DoMarkExternalSymbol _ :: rest => reportedErrors rest
  | DoSetError error :: rest => error :: reportedErrors rest
  end.

(** ** Members defined in [Script.cpp]

    The header only declares the members below.  Their behaviour is taken
    from the design specification; the external collaborators (the code
    generation backend, the linker, the storage holding the cache) are
    parameters, and every statement holds whatever they answer. *)

(** The build the driver is compiled for. *)
Variable build_jit : JitBackend.
Variable build_NDEBUG : bool.

(** The integer code of each error kind ([bcc/bcc.h]); the code of a failure
    is not the success code. *)
Variable error_code : ErrorKind -> int.
Hypothesis error_code_failure :
  forall kind, kind <> NoError -> error_code kind <> BCC_NO_ERROR.

(** The backend: compiles what a Script holds (sources, allow-list, lookup
    function) under an option and the caller's flags. *)
Variable backend_compile : Script -> CompilerOption -> Z -> CompileResult.

(** The linker: turns relocatable bytes into a shared object for a path. *)
Variable backend_link : list byte -> string -> Z -> option ScriptCompiled.

(** The storage: whether a path can be written. *)
Variable writable : string -> bool.

(** The relocation model used when a shared object is built from sources. *)
Variable sharedObjectRelocModel : Reloc.Model.

(** *** Sources *)

(** Modelled from the spec: source registration (the bodies of
    [addSourceBC], [addSourceModule] and [addSourceFile] are in [Script.cpp]):
    slot 0 or 1 receives the payload and flags, nothing is validated; any
    other slot fails with [InvalidSlot].  An occupied slot is overwritten. *)
Definition addSource (idx : nat) (payload : SourcePayload) (flags : Z)
  (s : Script) : Result * Script :=
  let source := Some {| sourcePayload := payload; sourceFlags := flags |} in
  match idx with
  | 0 => (Success, set_mSourceList [source; nth 1 (mSourceList s) None] s)
  | 1 => (Success, set_mSourceList [nth 0 (mSourceList s) None; source] s)
  | _ => (Failed InvalidSlot, setError (error_code InvalidSlot) s)
  end.

(** Modelled from the spec: [addSourceBC] (body in [Script.cpp]) registers
    raw bitcode; the size argument is the length of the bytes. *)
Definition addSourceBC (idx : nat) (resName : string) (bitcode : list byte)
  (flags : Z) (s : Script) : Result * Script :=
  addSource idx (Bitcode resName bitcode) flags s.

(** Modelled from the spec: [addSourceModule] (body in [Script.cpp])
    registers an in-memory program handle. *)
Definition addSourceModule (idx : nat) (module : ptr) (flags : Z)
  (s : Script) : Result * Script :=
  addSource idx (ModuleHandle module) flags s.

(** Modelled from the spec: [addSourceFile] (body in [Script.cpp]) registers
    a file path. *)
Definition addSourceFile (idx : nat) (path : string) (flags : Z)
  (s : Script) : Result * Script :=
  addSource idx (FilePath path) flags s.

(** *** Symbol resolution hook *)

(** Modelled from the spec: [registerSymbolCallback] (body in [Script.cpp])
    stores the pair, replacing any previous registration. *)
Definition registerSymbolCallback (pFn : option BCCSymbolLookupFn)
  (pContext : ptr) (s : Script) : Result * Script :=
  (Success, set_mpExtSymbolLookup pFn pContext s).

(** *** Export table *)

(** Modelled from the spec: the export table read by the introspection
    members (bodies in [Script.cpp]) is the one of the compiled unit that the
    status selects; there is none while the status is [Unknown]. *)
Definition exportTable (s : Script) : option ExportTable :=
  match mStatus s, mUnit s with
  | ScriptStatus.Compiled, mCompiled c => Some (compiledExports c)
  | ScriptStatus.Cached, mCached c => Some (cachedExports c)
  | _, _ => None
  end.

(** Modelled from the spec: the count accessors (bodies in [Script.cpp]):
    the number of entries of the category when the status is [Compiled] or
    [Cached], and 0 otherwise. *)
Definition exportCount {A : Type} (category : ExportTable -> list A)
  (s : Script) : nat :=
  match exportTable s with
  | Some table => List.length (category table)
  | None => 0
  end.

(** Modelled from the spec: [getExportVarCount] (body in [Script.cpp]). *)
Definition getExportVarCount : Script -> nat := exportCount exportVars.

(** Modelled from the spec: [getExportFuncCount] (body in [Script.cpp]). *)
Definition getExportFuncCount : Script -> nat := exportCount exportFuncs.

(** Modelled from the spec: [getExportForEachCount] (body in
    [Script.cpp]). *)
Definition getExportForEachCount : Script -> nat := exportCount exportForEach.

(** Modelled from the spec: [getPragmaCount] (body in [Script.cpp]). *)
Definition getPragmaCount : Script -> nat := exportCount pragmas.

(** Modelled from the spec: [getFuncCount] (body in [Script.cpp]). *)
Definition getFuncCount : Script -> nat := exportCount funcInfos.

(** Modelled from the spec: [getObjectSlotCount] (body in [Script.cpp]). *)
Definition getObjectSlotCount : Script -> nat := exportCount objectSlots.

(** Modelled from the spec: [getELF] (body in [Script.cpp]) exposes the raw
    compiled bytes after a successful preparation, and null ([None])
    otherwise. *)
Definition getELF (s : Script) : option (list byte) :=
  match mStatus s, mUnit s with
  | ScriptStatus.Compiled, mCompiled c => Some (compiledELF c)
  | ScriptStatus.Cached, mCached c => Some (cachedELF c)
  | _, _ => None
  end.

(** Modelled from the spec: [getELFSize] (body in [Script.cpp]) is the length
    of those bytes, 0 when there are none. *)
Definition getELFSize (s : Script) : nat :=
  match getELF s with
  | Some bytes => List.length bytes
  | None => 0
  end.

(** First address recorded under a name. *)
Fixpoint findSymbol (name : string) (symbols : list (string * ptr))
  : option ptr :=
  match symbols with
  | [] => None
  | (n, address) :: rest =>
      if String.eqb n name then Some address else findSymbol name rest
  end.

(** Modelled from the spec: [lookup] (body in [Script.cpp]): usable after a
    successful preparation; the unit's own symbols first, then the registered
    lookup function; before preparation it fails with [NotPrepared]. *)
Definition lookup (name : string) (s : Script) : ptr * Script :=
  match exportTable s with
  | None => (NULL, setError (error_code NotPrepared) s)
  | Some table =>
      match findSymbol name
              (exportVars table ++ exportFuncs table ++ exportForEach table
               ++ funcInfos table)%list with
      | Some address => (address, s)
      | None =>
          match mpExtSymbolLookupFn s with
          | Some fn => (fn (mpExtSymbolLookupFnContext s) name, s)
          | None => (NULL, s)
          end
      end
  end.

(** *** Cache *)

(** Modelled from the spec: [internalLoadCache] (body in [Script.cpp]), the
    cache probe.  A hit needs a sidecar that exists, parses and records
    exactly the current sources (payloads and flags) and the kind, and a
    non-empty object file; everything else is a miss ([None]), never an
    error.  A hit sets the cache directory, the cache name
    and the object kind and, unless [checkOnly], loads the unit and sets the
    status to [Cached]. *)
Definition internalLoadCache (cacheDir cacheName : string)
  (objectType : ScriptObject.ObjectType) (checkOnly : bool)
  (w : World) (s : Script) : option Script :=
  let probe := with_cache cacheDir cacheName objectType s in
  match getCachedObjectPath build_jit build_NDEBUG probe,
        getCacheInfoPath build_jit build_NDEBUG probe with
  | Returns objPath, Returns infoPath =>
      match files w infoPath, files w objPath with
      | Some (InfoFile (Some info)), Some (ObjectFile (b :: bytes)) =>
          if sources_eqb (infoSources info) (mSourceList s)
             && ObjectType_eqb (infoKind info) objectType
          then
            Some (if checkOnly then probe
                  else set_mStatus ScriptStatus.Cached
                         (set_mUnit
                            (mCached {| cachedExports := infoExports info;
                                        cachedELF := b :: bytes |})
                            probe))
          else None
      | _, _ => None
      end
  | _, _ => None
  end.

(** Modelled from the spec: the steps of [writeCache] (body in
    [Script.cpp]): valid only with the status [Compiled] and a cache
    directory and name; persists the object bytes and the sidecar, both or
    neither.  [None] is success. *)
Definition writeCache_steps (w : World) (s : Script)
  : World * option ErrorKind :=
  match mStatus s, mUnit s with
  | ScriptStatus.Compiled, mCompiled c =>
      if String.eqb (mCacheDir s) "" || String.eqb (mCacheName s) ""
      then (w, Some CacheWriteFailure)
      else
        match getCachedObjectPath build_jit build_NDEBUG s,
              getCacheInfoPath build_jit build_NDEBUG s with
        | Returns objPath, Returns infoPath =>
            if writable objPath && writable infoPath
            then
              (set_files
                 (writeFile infoPath
                    (InfoFile (Some {| infoSources := mSourceList s;
                                       infoKind := mObjectType s;
                                       infoExports := compiledExports c |}))
                    (writeFile objPath (ObjectFile (compiledELF c))
                       (files w)))
                 w,
               None)
            else (w, Some CacheWriteFailure)
        | _, _ => (w, Some CacheWriteFailure)
        end
  | _, _ => (w, Some CacheWriteFailure)
  end.

(** Modelled from the spec: how an entry point of [Script.cpp] ends: on
    success with the new state; on failure with the error passed to
    [setError] and the Script otherwise as it was before the call (a failed
    call leaves the status [Unknown] and never partially transitions
    state). *)
Definition commit (s : Script) (attempt : World * (Script + ErrorKind))
  : Result * World * Script :=
  match attempt with
  | (w, inl s') => (Success, w, s')
  | (w, inr kind) => (Failed kind, w, setError (error_code kind) s)
  end.

(** Modelled from the spec: the public [writeCache] (body in [Script.cpp]):
    its steps, and the error recorded when they fail. *)
Definition writeCache (w : World) (s : Script) : Result * World * Script :=
  match writeCache_steps w s with
  | (w', None) => (Success, w', s)
  | (w', Some kind) => (Failed kind, w', setError (error_code kind) s)
  end.

(** *** Compilation driver *)

(** Modelled from the spec: [internalCompile] (body in [Script.cpp]), the
    compile step shared by the entry points: the backend compiles the
    sources; on success the status becomes [Compiled], the object kind the
    one asked for, and the unit the in-memory representation. *)
Definition internalCompile (option : CompilerOption) (flags : Z) (s : Script)
  : Script + ErrorKind :=
  match backend_compile s option flags with
  | CompileOk c =>
      inl (set_mStatus ScriptStatus.Compiled
             (set_mObjectType (OutputKind option)
                (set_mUnit (mCompiled c) s)))
  | CompileSourceUnreadable => inr SourceUnreadable
  | CompileRejected => inr BackendCompileFailure
  end.

(** Modelled from the spec: caching is requested by a non-null cache
    directory and a non-null cache name (arguments of the entry points of
    [Script.cpp]). *)
Definition cachingRequested (cacheDir cacheName : option string)
  : option (string * string) :=
  match cacheDir, cacheName with
  | Some d, Some n => Some (d, n)
  | _, _ => None
  end.

(** Modelled from the spec: the cache-check / compile / write sequence of
    [prepareRelocatable] and [prepareExecutable] (bodies in [Script.cpp]):
    with caching requested, probe the cache and stop on a hit; on a miss
    compile; on success, with caching requested, write the cache. *)
Definition compileSequence (kind : ScriptObject.ObjectType)
  (reloc : option Reloc.Model) (cacheDir cacheName : option string)
  (flags : Z) (w : World) (s : Script) : World * (Script + ErrorKind) :=
  let requested := cachingRequested cacheDir cacheName in
  let probe :=
    match requested with
    | Some (d, n) => internalLoadCache d n kind false w s
    | None => None
    end in
  match probe with
  | Some loaded => (w, inl loaded)
  | None =>
      match internalCompile {| OutputKind := kind; RelocModelOpt := reloc |}
              flags s with
      | inr failure => (w, inr failure)
      | inl compiled =>
          match requested with
          | None => (w, inl compiled)
          | Some (d, n) =>
              let cacheable := set_mCacheName n (set_mCacheDir d compiled) in
              match writeCache_steps w cacheable with
              | (w', None) => (w', inl cacheable)
              | (w', Some failure) => (w', inr failure)
              end
          end
      end
  end.

(** The bytes held by the storage, none when no member is active. *)
Definition unitELF (u : CompiledUnit) : list byte :=
  match u with
  | Indeterminate => []
  | mCompiled c => compiledELF c
  | mCached c => cachedELF c
  end.

(** Modelled from the spec: the link step of [prepareSharedObject] (body in
    [Script.cpp]): the linker turns a relocatable object into the shared
    object at [dsoPath]. *)
Definition linkSharedObject (relocatable : list byte) (dsoPath : string)
  (flags : Z) (w : World) (s : Script) : World * (Script + ErrorKind) :=
  match backend_link relocatable dsoPath flags with
  | Some dso =>
      (set_files (writeFile dsoPath (ObjectFile (compiledELF dso)) (files w))
         w,
       inl (set_mStatus ScriptStatus.Compiled
              (set_mObjectType ScriptObject.SharedObject
                 (set_mUnit (mCompiled dso) s))))
  | None => (w, inr LinkFailure)
  end.

(** Modelled from the spec: the steps of [prepareSharedObject] (body in
    [Script.cpp]): a supplied [objPath] is linked directly; without one a
    relocatable object is first obtained from the slot-0 source, with the
    cache, and then linked.  A failing sub-step ends the call with its
    error. *)
Definition sharedObject_steps (cacheDir cacheName objPath : option string)
  (dsoPath : string) (flags : Z) (w : World) (s : Script)
  : World * (Script + ErrorKind) :=
  match objPath with
  | Some path =>
      match files w path with
      | Some (ObjectFile relocatable) =>
          linkSharedObject relocatable dsoPath flags w s
      | _ => (w, inr LinkFailure)
      end
  | None =>
      let main := set_mSourceList [nth 0 (mSourceList s) None; None] s in
      match compileSequence ScriptObject.Relocatable
              (Some sharedObjectRelocModel) cacheDir cacheName flags w main
      with
      | (w1, inr failure) => (w1, inr failure)
      | (w1, inl s1) =>
          linkSharedObject (unitELF (mUnit s1)) dsoPath flags w1
            (set_mSourceList (mSourceList s) s1)
      end
  end.

(** Modelled from the spec: [prepareRelocatable] (body in [Script.cpp]):
    the cache-check / compile / write sequence for a relocatable object with
    the given relocation model. *)
Definition prepareRelocatable (cacheDir cacheName : option string)
  (RelocModel : Reloc.Model) (flags : Z) (w : World) (s : Script)
  : Result * World * Script :=
  commit s (compileSequence ScriptObject.Relocatable (Some RelocModel)
              cacheDir cacheName flags w s).

(** Modelled from the spec: [prepareSharedObject] (body in [Script.cpp]):
    the link steps above. *)
Definition prepareSharedObject (cacheDir cacheName objPath : option string)
  (dsoPath : string) (flags : Z) (w : World) (s : Script)
  : Result * World * Script :=
  commit s (sharedObject_steps cacheDir cacheName objPath dsoPath flags w s).

(** Modelled from the spec: [prepareExecutable] (body in [Script.cpp]): the
    same cache-check / compile / write sequence as for a relocatable object,
    for an executable unit. *)
Definition prepareExecutable (cacheDir cacheName : option string)
  (flags : Z) (w : World) (s : Script) : Result * World * Script :=
  commit s (compileSequence ScriptObject.Executable None
              cacheDir cacheName flags w s).

(** *** Calls on a Script *)

Inductive PrepareCall :=
| PrepareRelocatable (cacheDir cacheName : option string)
    (RelocModel : Reloc.Model) (flags : Z)
| PrepareSharedObject (cacheDir cacheName objPath : option string)
    (dsoPath : string) (flags : Z)
| PrepareExecutable (cacheDir cacheName : option string) (flags : Z).

Definition prepare (c : PrepareCall) (w : World) (s : Script)
  : Result * World * Script :=
  match c with
  | PrepareRelocatable d n m f => prepareRelocatable d n m f w s
  | PrepareSharedObject d n o p f => prepareSharedObject d n o p f w s
  | PrepareExecutable d n f => prepareExecutable d n f w s
  end.

(** Modelled from the spec: the members that only read a Script (bodies in
    [Script.cpp]): the export table is a read-only view, the list members
    fill storage owned by the caller. *)
Inductive Accessor :=
| GetUserDefinedExternalSymbols
| GetCompilerErrorMessage
| GetExportVarCount
| GetExportFuncCount
| GetExportForEachCount
| GetPragmaCount
| GetFuncCount
| GetObjectSlotCount
| GetExportVarList (size : nat)
| GetExportFuncList (size : nat)
| GetExportForEachList (size : nat)
| GetExportVarNameList
| GetExportFuncNameList
| GetExportForEachNameList
| GetPragmaList (size : nat)
| GetFuncInfoList (size : nat)
| GetObjectSlotList (size : nat)
| GetELFSize
| GetELF
| IsCacheable.

(** The public members of a Script. *)
Inductive Call :=
| CallAccessor (a : Accessor)
| CallAddSource (idx : nat) (payload : SourcePayload) (flags : Z)
| CallMarkExternalSymbol (name : string)
| CallRegisterSymbolCallback (pFn : option BCCSymbolLookupFn) (pContext : ptr)
| CallPrepare (c : PrepareCall)
| CallWriteCache
| CallLookup (name : string)
| CallSetError (error : int)
| CallGetError.

Definition perform (c : Call) (w : World) (s : Script) : World * Script :=
  match c with
  | CallAccessor _ => (w, s)
  | CallAddSource idx payload flags => (w, snd (addSource idx payload flags s))
  | CallMarkExternalSymbol name => (w, markExternalSymbol name s)
  | CallRegisterSymbolCallback pFn pContext =>
      (w, snd (registerSymbolCallback pFn pContext s))
  | CallPrepare p =>
      match prepare p w s with
      | (_, w', s') => (w', s')
      end
  | CallWriteCache =>
      match writeCache w s with
      | (_, w', s') => (w', s')
      end
  | CallLookup name => (w, snd (lookup name s))
  | CallSetError error => (w, setError error s)
  | CallGetError => (w, snd (getError s))
  end.

(** The states a Script can be in: the constructor's, and whatever a call
    makes of a state already reached. *)
Inductive reachable : World -> Script -> Prop :=
| reachable_new (p : Process) (fs : FileSystem) :
    reachable {| process := fst (Script_new p); files := fs |}
      (snd (Script_new p))
| reachable_call (c : Call) (w : World) (s : Script) :
    reachable w s ->
    reachable (fst (perform c w s)) (snd (perform c w s)).

(** The status invariant: a [Compiled] Script holds the in-memory unit, a
    [Cached] one the unit loaded from the cache, and in both cases the object
    kind is known. *)
Definition StatusInvariant (s : Script) : Prop :=
  match mStatus s with
  | ScriptStatus.Unknown => True
  | ScriptStatus.Compiled =>
      (exists c, mUnit s = mCompiled c)
      /\ mObjectType s <> ScriptObject.Unknown
  | ScriptStatus.Cached =>
      (exists c, mUnit s = mCached c)
      /\ mObjectType s <> ScriptObject.Unknown
  end.

(** What every introspection accessor answers on an unprepared Script. *)
Definition answersNothing (s : Script) : Prop :=
  getExportVarCount s = 0
  /\ getExportFuncCount s = 0
  /\ getExportForEachCount s = 0
  /\ getPragmaCount s = 0
  /\ getFuncCount s = 0
  /\ getObjectSlotCount s = 0
  /\ getELFSize s = 0
  /\ getELF s = None.

(** * Properties *)

(** ** Auxiliary facts *)

Lemma append_assoc (a b c : string) : (a ++ b) ++ c = a ++ (b ++ c).
Proof using Type.
  induction a as [|ch a IH]; simpl.
  - reflexivity.
  - now rewrite IH.
Qed.

Lemma setError_cases (error : int) (s : Script) :
  (mErrorCode s = BCC_NO_ERROR /\ error <> BCC_NO_ERROR
   /\ setError error s = set_mErrorCode error s)
  \/ (~ (mErrorCode s = BCC_NO_ERROR /\ error <> BCC_NO_ERROR)
      /\ setError error s = s).
Proof using Type.
  unfold setError.
  destruct (Z.eqb_spec (mErrorCode s) BCC_NO_ERROR) as [Hs|Hs];
    destruct (Z.eqb_spec error BCC_NO_ERROR) as [He|He]; simpl.
  - right. split; [intros [_ H]; now apply H | reflexivity].
  - left. repeat split; assumption.
  - right. split; [intros [H _]; now apply Hs | reflexivity].
  - right. split; [intros [H _]; now apply Hs | reflexivity].
Qed.

Lemma setError_pending (error : int) (s : Script) :
  mErrorCode s <> BCC_NO_ERROR -> setError error s = s.
Proof using Type.
  intros Hp. destruct (setError_cases error s) as [[H _]|[_ H]].
  - contradiction.
  - exact H.
Qed.

Lemma setErrors_pending (errors : list int) (s : Script) :
  mErrorCode s <> BCC_NO_ERROR -> setErrors errors s = s.
Proof using Type.
  revert s. induction errors as [|e errors IH]; intros s Hp.
  - reflexivity.
  - unfold setErrors in *. simpl. rewrite (setError_pending e s Hp).
    now apply IH.
Qed.

(** ** The error accumulator *)

(** C1. First error wins: [setError B] stores [B] when no error is pending and
    [B] is not [BCC_NO_ERROR]; in every other case the pending code is left as
    it is; the code changes exactly in the first case; and a pending error
    survives any run of later [setError] calls. *)
Theorem setError_first_error_wins (s : Script) (B : int) :
  (mErrorCode s = BCC_NO_ERROR /\ B <> BCC_NO_ERROR ->
   mErrorCode (setError B s) = B)
  /\ (~ (mErrorCode s = BCC_NO_ERROR /\ B <> BCC_NO_ERROR) ->
      mErrorCode (setError B s) = mErrorCode s)
  /\ (mErrorCode (setError B s) <> mErrorCode s <->
      mErrorCode s = BCC_NO_ERROR /\ B <> BCC_NO_ERROR)
  /\ (forall later : list int,
        mErrorCode s <> BCC_NO_ERROR ->
        mErrorCode (setErrors later s) = mErrorCode s).
Proof using Type.
  destruct (setError_cases B s) as [(Hs & HB & E)|(Hn & E)]; rewrite E.
  - (* the code is stored *)
    split; [|split; [|split; [split|]]]; simpl.
    + intros _. reflexivity.
    + intros Hn. exfalso. apply Hn. split; assumption.
    + intros _. split; assumption.
    + intros _ Heq. apply HB. rewrite Heq. exact Hs.
    + intros later Hp. exfalso. apply Hp. exact Hs.
  - (* the call is ignored *)
    split; [|split; [|split; [split|]]].
    + intros Hc. exfalso. apply Hn. exact Hc.
    + intros _. reflexivity.
    + intros Hd. exfalso. apply Hd. reflexivity.
    + intros Hc. exfalso. apply Hn. exact Hc.
    + intros later Hp. now rewrite setErrors_pending.
Qed.

(** C2. [getError] is read-and-clear: in every state it returns the pending
    code and leaves [BCC_NO_ERROR] behind, so that a second [getError]
    returns [BCC_NO_ERROR]; after [setError A; setError B] on a Script with no
    error pending, with [A] and [B] distinct failures, the first [getError]
    returns [A] and the second returns [BCC_NO_ERROR]. *)
Theorem getError_read_and_clear (s : Script) :
  fst (getError s) = mErrorCode s
  /\ mErrorCode (snd (getError s)) = BCC_NO_ERROR
  /\ fst (getError (snd (getError s))) = BCC_NO_ERROR
  /\ (forall A B : int,
        mErrorCode s = BCC_NO_ERROR ->
        A <> BCC_NO_ERROR -> B <> BCC_NO_ERROR -> A <> B ->
        let s2 := setError B (setError A s) in
        fst (getError s2) = A
        /\ fst (getError (snd (getError s2))) = BCC_NO_ERROR).
Proof using Type.
  split; [reflexivity|]. split; [reflexivity|]. split; [reflexivity|].
  intros A B Hs HA HB HAB s2. subst s2.
  destruct (setError_cases A s) as [(_ & _ & E)|(Hn & _)];
    [|exfalso; apply Hn; split; assumption].
  rewrite E. rewrite setError_pending by (simpl; exact HA).
  split; reflexivity.
Qed.

(** C10. Frame of the error members: [setError] and [getError] leave every
    member other than [mErrorCode] as it was, and what they compute depends on
    [mErrorCode] (and the argument) only. *)
Theorem error_members_frame (s : Script) (error : int) :
  (forall s1 : Script,
     s1 = setError error s \/ s1 = snd (getError s) ->
     mStatus s1 = mStatus s
     /\ mObjectType s1 = mObjectType s
     /\ mUnit s1 = mUnit s
     /\ mCacheDir s1 = mCacheDir s
     /\ mCacheName s1 = mCacheName s
     /\ mIsContextSlotNotAvail s1 = mIsContextSlotNotAvail s
     /\ mSourceList s1 = mSourceList s
     /\ mUserDefinedExternalSymbols s1 = mUserDefinedExternalSymbols s
     /\ mpExtSymbolLookupFn s1 = mpExtSymbolLookupFn s
     /\ mpExtSymbolLookupFnContext s1 = mpExtSymbolLookupFnContext s)
  /\ (forall t : Script,
        mErrorCode t = mErrorCode s ->
        mErrorCode (setError error t) = mErrorCode (setError error s)
        /\ fst (getError t) = fst (getError s)
        /\ mErrorCode (snd (getError t)) = mErrorCode (snd (getError s))).
Proof using Type.
  split.
  - intros s1 [->| ->].
    + destruct (setError_cases error s) as [(_ & _ & E)|(_ & E)]; rewrite E;
        repeat split.
    + repeat split.
  - intros t Ht. unfold setError, getError. rewrite Ht.
    destruct ((mErrorCode s =? BCC_NO_ERROR)%Z
              && negb (error =? BCC_NO_ERROR)%Z); simpl; auto.
Qed.

(** ** Construction *)

(** C4. A freshly constructed Script has status and object kind [Unknown], no
    pending error (so a first [getError] returns [BCC_NO_ERROR]), two empty
    source slots, an empty allow-list, no lookup function and a null context;
    constructing it runs the backend's global initialization. *)
Theorem Script_new_initial_state (p : Process) :
  mStatus (snd (Script_new p)) = ScriptStatus.Unknown
  /\ mObjectType (snd (Script_new p)) = ScriptObject.Unknown
  /\ mErrorCode (snd (Script_new p)) = BCC_NO_ERROR
  /\ fst (getError (snd (Script_new p))) = BCC_NO_ERROR
  /\ mSourceList (snd (Script_new p)) = [None; None]
  /\ getUserDefinedExternalSymbols (snd (Script_new p)) = []
  /\ mpExtSymbolLookupFn (snd (Script_new p)) = None
  /\ mpExtSymbolLookupFnContext (snd (Script_new p)) = NULL
  /\ fst (Script_new p) = Compiler_GlobalInitialization p
  /\ GlobalInitialized (fst (Script_new p)) = true.
Proof using Type.
  repeat split.
  simpl. unfold Compiler_GlobalInitialization.
  destruct (GlobalInitialized p) eqn:E; [exact E | reflexivity].
Qed.

(** ** The allow-list *)

Lemma markExternalSymbols_spec (names : list string) (s : Script) :
  getUserDefinedExternalSymbols (markExternalSymbols names s)
  = (getUserDefinedExternalSymbols s ++ names)%list.
Proof using Type.
  revert s. induction names as [|n names IH]; intros s.
  - simpl. now rewrite app_nil_r.
  - unfold markExternalSymbols in *. simpl. rewrite IH.
    unfold getUserDefinedExternalSymbols, markExternalSymbol. simpl.
    now rewrite <- app_assoc.
Qed.

(** C5. [markExternalSymbol n] extends the allow-list by the one entry [n] at
    its end; after the calls [n1 .. nk] on a fresh Script the list read back
    is [n1 .. nk], in that order. *)
Theorem markExternalSymbol_appends
  (s : Script) (n : string) (names : list string) (p : Process) :
  getUserDefinedExternalSymbols (markExternalSymbol n s)
  = (getUserDefinedExternalSymbols s ++ [n])%list
  /\ getUserDefinedExternalSymbols
       (markExternalSymbols names (snd (Script_new p))) = names.
Proof using Type.
  split.
  - reflexivity.
  - now rewrite markExternalSymbols_spec.
Qed.

(** ** Cache paths *)

(** C3, as amended. With [USE_MCJIT], the object path is the cache directory
    string immediately followed by the cache name and by [.o] for a
    relocatable or an executable, [.so] for a shared object; no separator is
    put between directory and name, so the path reads [D/N] plus suffix
    exactly when the stored directory already ends in the separator.  The
    info path is the object path followed by [.info].  Both are functions of
    the three members [mCacheDir], [mCacheName] and [mObjectType] only. *)
Theorem cache_paths_derivation (NDEBUG : bool) (s : Script) :
  (mObjectType s = ScriptObject.Relocatable
   \/ mObjectType s = ScriptObject.Executable ->
   getCachedObjectPath USE_MCJIT NDEBUG s
   = Returns ((mCacheDir s ++ mCacheName s) ++ ".o"))
  /\ (mObjectType s = ScriptObject.SharedObject ->
      getCachedObjectPath USE_MCJIT NDEBUG s
      = Returns ((mCacheDir s ++ mCacheName s) ++ ".so"))
  /\ (forall path : string,
        getCachedObjectPath USE_MCJIT NDEBUG s = Returns path ->
        getCacheInfoPath USE_MCJIT NDEBUG s = Returns (path ++ ".info"))
  /\ (forall (jit : JitBackend) (t : Script),
        mCacheDir t = mCacheDir s ->
        mCacheName t = mCacheName s ->
        mObjectType t = mObjectType s ->
        getCachedObjectPath jit NDEBUG t = getCachedObjectPath jit NDEBUG s
        /\ getCacheInfoPath jit NDEBUG t = getCacheInfoPath jit NDEBUG s)
  /\ (forall D : string,
        mCacheDir s = D ++ "/" ->
        mObjectType s <> ScriptObject.Unknown ->
        getCachedObjectPath USE_MCJIT NDEBUG s
        = Returns (fst (derivePaths_spec D (mCacheName s) (mObjectType s)))
        /\ getCacheInfoPath USE_MCJIT NDEBUG s
           = Returns (snd (derivePaths_spec D (mCacheName s)
                             (mObjectType s)))).
Proof using Type.
  split; [|split; [|split; [|split]]].
  - intros [H|H]; simpl; now rewrite H.
  - intros H; simpl; now rewrite H.
  - intros path H. unfold getCacheInfoPath. now rewrite H.
  - intros jit t HD HN HK.
    unfold getCacheInfoPath, getCachedObjectPath. now rewrite HD, HN, HK.
  - intros D HD HK.
    unfold getCacheInfoPath, getCachedObjectPath, derivePaths_spec.
    rewrite HD. destruct (mObjectType s); try congruence;
      repeat first [rewrite append_assoc | progress simpl];
      split; reflexivity.
Qed.

(** C9. With [USE_MCJIT], a Script whose object kind is relocatable,
    executable or shared object never reaches the assertion of
    [getCachedObjectPath]: a path is returned whether or not assertions are
    compiled in.  With the kind [Unknown] the assertion fails; a build with
    [NDEBUG] falls through and returns directory plus name, without any
    suffix. *)
Theorem getCachedObjectPath_assertion (s : Script) :
  (mObjectType s = ScriptObject.Relocatable
   \/ mObjectType s = ScriptObject.Executable
   \/ mObjectType s = ScriptObject.SharedObject ->
   forall NDEBUG : bool,
     (forall message : string,
        getCachedObjectPath USE_MCJIT NDEBUG s <> AssertionFailed message)
     /\ exists path : string,
          getCachedObjectPath USE_MCJIT NDEBUG s = Returns path)
  /\ (mObjectType s = ScriptObject.Unknown ->
      getCachedObjectPath USE_MCJIT false s
      = AssertionFailed "Unknown object type!"
      /\ getCachedObjectPath USE_MCJIT true s
         = Returns (mCacheDir s ++ mCacheName s)).
Proof using Type.
  split.
  - intros [H|[H|H]] NDEBUG; simpl; rewrite H;
      (split; [discriminate | eexists; reflexivity]).
  - intros H. simpl. rewrite H. split; reflexivity.
Qed.

(** ** Introspection before preparation *)

(** C6. On a Script whose status is [Unknown], and so on a freshly
    constructed one, every count accessor returns 0, [getELFSize] returns 0
    and [getELF] returns null. *)
Theorem unprepared_introspection (s : Script) :
  (mStatus s = ScriptStatus.Unknown -> answersNothing s)
  /\ (forall p : Process, answersNothing (snd (Script_new p))).
Proof using Type.
  assert (H : forall t, mStatus t = ScriptStatus.Unknown -> answersNothing t).
  { intros t Ht. unfold answersNothing, getExportVarCount, getExportFuncCount,
      getExportForEachCount, getPragmaCount, getFuncCount, getObjectSlotCount,
      exportCount, exportTable, getELFSize, getELF.
    rewrite Ht. repeat split. }
  split.
  - apply H.
  - intros p. apply H. reflexivity.
Qed.

(** ** Preparation *)

Lemma setError_frame (error : int) (s : Script) :
  mStatus (setError error s) = mStatus s
  /\ mObjectType (setError error s) = mObjectType s
  /\ mUnit (setError error s) = mUnit s.
Proof using Type.
  destruct (setError_cases error s) as [(_ & _ & E)|(_ & E)]; rewrite E;
    repeat split.
Qed.

Lemma compileSequence_failure kind reloc cacheDir cacheName flags w s w' k :
  compileSequence kind reloc cacheDir cacheName flags w s = (w', inr k) ->
  k = SourceUnreadable \/ k = BackendCompileFailure \/ k = CacheWriteFailure.
Proof using Type.
  unfold compileSequence, internalCompile.
  destruct (match cachingRequested cacheDir cacheName with
            | Some (d, n) => internalLoadCache d n kind false w s
            | None => None
            end); [discriminate|].
  destruct (backend_compile s _ flags).
  - destruct (cachingRequested cacheDir cacheName) as [[d n]|];
      [|discriminate].
    match goal with
    | |- context [writeCache_steps ?a ?b] =>
        assert (Hw : snd (writeCache_steps a b) = None
                     \/ snd (writeCache_steps a b) = Some CacheWriteFailure);
        [|destruct (writeCache_steps a b) as [w1 [k1|]]; simpl in Hw]
    end.
    + unfold writeCache_steps.
      repeat match goal with
             | |- context [match ?x with _ => _ end] => destruct x
             end; simpl; auto.
    + intros E. inversion E; subst. destruct Hw as [Hw|Hw];
        [discriminate | inversion Hw; auto].
    + discriminate.
  - intros E. inversion E. auto.
  - intros E. inversion E. auto.
Qed.

Lemma linkSharedObject_failure relocatable dsoPath flags w s w' k :
  linkSharedObject relocatable dsoPath flags w s = (w', inr k) ->
  k = LinkFailure.
Proof using Type.
  unfold linkSharedObject.
  destruct (backend_link relocatable dsoPath flags); intros E;
    inversion E; reflexivity.
Qed.

Lemma sharedObject_steps_failure cacheDir cacheName objPath dsoPath flags
  w s w' k :
  sharedObject_steps cacheDir cacheName objPath dsoPath flags w s
  = (w', inr k) ->
  k <> NoError.
Proof using Type.
  unfold sharedObject_steps. destruct objPath as [path|].
  - destruct (files w path) as [[relocatable|info]|]; intros E.
    + apply linkSharedObject_failure in E. now subst.
    + inversion E. discriminate.
    + inversion E. discriminate.
  - destruct (compileSequence _ _ cacheDir cacheName flags w _)
      as [w1 [s1|k1]] eqn:Hc; intros E.
    + apply linkSharedObject_failure in E. now subst.
    + inversion E; subst.
      apply compileSequence_failure in Hc.
      destruct Hc as [->|[->| ->]]; discriminate.
Qed.

Lemma prepare_failure_kind c w s k w' s' :
  prepare c w s = (Failed k, w', s') ->
  k <> NoError /\ s' = setError (error_code k) s.
Proof using Type.
  destruct c as [d n m f|d n o p f|d n f]; simpl;
    unfold prepareRelocatable, prepareSharedObject, prepareExecutable, commit.
  - destruct (compileSequence _ _ d n f w s) as [w1 [s1|k1]] eqn:Hc;
      intros E; inversion E; subst. split; [|reflexivity].
    apply compileSequence_failure in Hc.
    destruct Hc as [->|[->| ->]]; discriminate.
  - destruct (sharedObject_steps d n o p f w s) as [w1 [s1|k1]] eqn:Hc;
      intros E; inversion E; subst. split; [|reflexivity].
    now apply sharedObject_steps_failure in Hc.
  - destruct (compileSequence _ _ d n f w s) as [w1 [s1|k1]] eqn:Hc;
      intros E; inversion E; subst. split; [|reflexivity].
    apply compileSequence_failure in Hc.
    destruct Hc as [->|[->| ->]]; discriminate.
Qed.

(** C7. A [prepareRelocatable], [prepareSharedObject] or [prepareExecutable]
    call that fails on a Script of status [Unknown] leaves the status
    [Unknown], has passed the code of its failure to [setError] (so that code
    is the pending error unless an earlier one was), and has changed no other
    member: object kind, compiled unit, cache strings, sources, allow-list and
    lookup registration are as before. *)
Theorem prepare_failure_atomic
  (c : PrepareCall) (w : World) (s : Script)
  (kind : ErrorKind) (w' : World) (s' : Script) :
  mStatus s = ScriptStatus.Unknown ->
  prepare c w s = (Failed kind, w', s') ->
  mStatus s' = ScriptStatus.Unknown
  /\ kind <> NoError
  /\ s' = setError (error_code kind) s
  /\ (mErrorCode s = BCC_NO_ERROR ->
      mErrorCode s' = error_code kind /\ mErrorCode s' <> BCC_NO_ERROR)
  /\ mObjectType s' = mObjectType s
  /\ mUnit s' = mUnit s
  /\ mCacheDir s' = mCacheDir s
  /\ mCacheName s' = mCacheName s
  /\ mSourceList s' = mSourceList s
  /\ mUserDefinedExternalSymbols s' = mUserDefinedExternalSymbols s
  /\ mpExtSymbolLookupFn s' = mpExtSymbolLookupFn s
  /\ mpExtSymbolLookupFnContext s' = mpExtSymbolLookupFnContext s.
Proof using error_code_failure.
  intros Hs Hp. apply prepare_failure_kind in Hp. destruct Hp as [Hk ->].
  pose proof (error_code_failure kind Hk) as Hcode.
  assert (Hpending : mErrorCode s = BCC_NO_ERROR ->
                     mErrorCode (setError (error_code kind) s)
                     = error_code kind
                     /\ mErrorCode (setError (error_code kind) s)
                        <> BCC_NO_ERROR).
  { intros H0.
    destruct (setError_cases (error_code kind) s) as [(_ & _ & E)|(Hn & _)].
    - rewrite E. simpl. split; [reflexivity | exact Hcode].
    - exfalso. apply Hn. split; assumption. }
  destruct (setError_cases (error_code kind) s) as [(_ & _ & E)|(_ & E)];
    rewrite E in *; simpl; repeat (split; [solve [auto]|]); reflexivity.
Qed.

(** ** The status invariant *)

Lemma StatusInvariant_frame (s s' : Script) :
  mStatus s' = mStatus s ->
  mObjectType s' = mObjectType s ->
  mUnit s' = mUnit s ->
  StatusInvariant s -> StatusInvariant s'.
Proof using Type.
  unfold StatusInvariant. intros -> -> ->. exact (fun H => H).
Qed.

Lemma StatusInvariant_setError (error : int) (s : Script) :
  StatusInvariant s -> StatusInvariant (setError error s).
Proof using Type.
  destruct (setError_frame error s) as (H1 & H2 & H3).
  now apply StatusInvariant_frame.
Qed.

Lemma internalLoadCache_invariant cacheDir cacheName kind w s loaded :
  kind <> ScriptObject.Unknown ->
  internalLoadCache cacheDir cacheName kind false w s = Some loaded ->
  StatusInvariant loaded.
Proof using Type.
  intros Hk. unfold internalLoadCache.
  destruct (getCachedObjectPath _ _ _) as [objPath|]; [|discriminate].
  destruct (getCacheInfoPath _ _ _) as [infoPath|]; [|discriminate].
  destruct (files w infoPath) as [[|[info|]]|]; try discriminate.
  destruct (files w objPath) as [[[|b bytes]|]|]; try discriminate.
  destruct (_ && _); [|discriminate].
  intros E. inversion E; subst. unfold StatusInvariant. simpl.
  split; [eexists; reflexivity | exact Hk].
Qed.

Lemma internalCompile_invariant option flags s compiled :
  OutputKind option <> ScriptObject.Unknown ->
  internalCompile option flags s = inl compiled ->
  StatusInvariant compiled.
Proof using Type.
  intros Hk. unfold internalCompile.
  destruct (backend_compile s option flags); try discriminate.
  intros E. inversion E; subst. unfold StatusInvariant. simpl.
  split; [eexists; reflexivity | exact Hk].
Qed.

Lemma compileSequence_invariant kind reloc cacheDir cacheName flags w s w' s' :
  kind <> ScriptObject.Unknown ->
  compileSequence kind reloc cacheDir cacheName flags w s = (w', inl s') ->
  StatusInvariant s'.
Proof using Type.
  intros Hk. unfold compileSequence.
  destruct (cachingRequested cacheDir cacheName) as [[d n]|].
  - destruct (internalLoadCache d n kind false w s) as [loaded|] eqn:Hl.
    + intros E. inversion E; subst.
      now apply internalLoadCache_invariant in Hl.
    + destruct (internalCompile _ flags s) as [compiled|k] eqn:Hc;
        [|discriminate].
      apply internalCompile_invariant in Hc; [|exact Hk].
      destruct (writeCache_steps w _) as [w1 [k1|]]; [discriminate|].
      intros E. inversion E; subst.
      revert Hc. now apply StatusInvariant_frame.
  - destruct (internalCompile _ flags s) as [compiled|k] eqn:Hc;
      [|discriminate].
    apply internalCompile_invariant in Hc; [|exact Hk].
    intros E. now inversion E; subst.
Qed.

Lemma linkSharedObject_invariant relocatable dsoPath flags w s w' s' :
  linkSharedObject relocatable dsoPath flags w s = (w', inl s') ->
  StatusInvariant s'.
Proof using Type.
  unfold linkSharedObject.
  destruct (backend_link relocatable dsoPath flags); [|discriminate].
  intros E. inversion E; subst. unfold StatusInvariant. simpl.
  split; [eexists; reflexivity | discriminate].
Qed.

Lemma sharedObject_steps_invariant cacheDir cacheName objPath dsoPath flags
  w s w' s' :
  sharedObject_steps cacheDir cacheName objPath dsoPath flags w s
  = (w', inl s') ->
  StatusInvariant s'.
Proof using Type.
  unfold sharedObject_steps. destruct objPath as [path|].
  - destruct (files w path) as [[relocatable|info]|]; try discriminate.
    apply linkSharedObject_invariant.
  - destruct (compileSequence _ _ cacheDir cacheName flags w _)
      as [w1 [s1|k1]]; [|discriminate].
    apply linkSharedObject_invariant.
Qed.

Lemma commit_invariant (s : Script) (attempt : World * (Script + ErrorKind)) :
  StatusInvariant s ->
  (forall w' s', attempt = (w', inl s') -> StatusInvariant s') ->
  StatusInvariant (snd (commit s attempt)).
Proof using Type.
  intros Hs Hok. destruct attempt as [w' [s'|k]]; simpl.
  - now apply (Hok w').
  - now apply StatusInvariant_setError.
Qed.

Lemma prepare_invariant (c : PrepareCall) (w : World) (s : Script) :
  StatusInvariant s -> StatusInvariant (snd (prepare c w s)).
Proof using Type.
  intros Hs. destruct c as [d n m f|d n o p f|d n f]; simpl;
    unfold prepareRelocatable, prepareSharedObject, prepareExecutable;
    apply commit_invariant; try exact Hs; intros w' s' E.
  - apply compileSequence_invariant in E; [exact E | discriminate].
  - now apply sharedObject_steps_invariant in E.
  - apply compileSequence_invariant in E; [exact E | discriminate].
Qed.

Lemma perform_invariant (c : Call) (w : World) (s : Script) :
  StatusInvariant s -> StatusInvariant (snd (perform c w s)).
Proof using Type.
  intros Hs. destruct c as [a|idx payload flags|name|pFn pContext|p| |name
                           |error| ]; simpl.
  - exact Hs.
  - unfold addSource. destruct idx as [|[|idx]]; simpl;
      try (revert Hs; apply StatusInvariant_frame; reflexivity).
    now apply StatusInvariant_setError.
  - revert Hs. apply StatusInvariant_frame; reflexivity.
  - revert Hs. apply StatusInvariant_frame; reflexivity.
  - pose proof (prepare_invariant p w s Hs) as H.
    destruct (prepare p w s) as [[r w'] s']. exact H.
  - unfold writeCache. destruct (writeCache_steps w s) as [w' [k|]]; simpl.
    + now apply StatusInvariant_setError.
    + exact Hs.
  - unfold lookup. destruct (exportTable s) as [table|]; simpl.
    + destruct (findSymbol name _); simpl; [exact Hs|].
      destruct (mpExtSymbolLookupFn s); exact Hs.
    + now apply StatusInvariant_setError.
  - now apply StatusInvariant_setError.
  - revert Hs. apply StatusInvariant_frame; reflexivity.
Qed.

Lemma reachable_invariant (w : World) (s : Script) :
  reachable w s -> StatusInvariant s.
Proof using Type.
  induction 1 as [p fs|c w s _ IH].
  - exact I.
  - now apply perform_invariant.
Qed.

(** C8. In every reachable state, a status of [Compiled] comes with the
    in-memory unit and a status of [Cached] with the unit loaded from the
    cache (the storage holds one or the other, never both), and in both cases
    the object kind is not [Unknown]; every public operation preserves this
    predicate. *)
Theorem status_invariant :
  (forall (w : World) (s : Script),
     reachable w s ->
     (mStatus s = ScriptStatus.Compiled ->
      (exists c, mUnit s = mCompiled c)
      /\ mObjectType s <> ScriptObject.Unknown)
     /\ (mStatus s = ScriptStatus.Cached ->
         (exists c, mUnit s = mCached c)
         /\ mObjectType s <> ScriptObject.Unknown))
  /\ (forall (c : Call) (w : World) (s : Script),
        StatusInvariant s -> StatusInvariant (snd (perform c w s))).
Proof using Type.
  split.
  - intros w s Hr. apply reachable_invariant in Hr.
    unfold StatusInvariant in Hr.
    split; intros E; rewrite E in Hr; exact Hr.
  - exact perform_invariant.
Qed.

(** * Further properties of the inline members *)

(** ** Runs of reports *)

Lemma setError_success (s : Script) : setError BCC_NO_ERROR s = s.
Proof using Type.
  unfold setError. rewrite Z.eqb_refl. simpl. now rewrite andb_false_r.
Qed.

Lemma setError_absorbed (first later : int) (s : Script) :
  first <> BCC_NO_ERROR -> setError later (setError first s) = setError first s.
Proof using Type.
  intros Hf.
  destruct (setError_cases first s) as [(_ & _ & E)|(Hn & E)]; rewrite E.
  - apply setError_pending. simpl. exact Hf.
  - apply setError_pending. intros Hs. apply Hn. split; assumption.
Qed.

Lemma firstFailure_cons (error : int) (errors : list int) :
  firstFailure (error :: errors)
  = if (error =? BCC_NO_ERROR)%Z then firstFailure errors else error.
Proof using Type.
  unfold firstFailure. simpl. now destruct (error =? BCC_NO_ERROR)%Z.
Qed.

Lemma set_mErrorCode_same (s : Script) :
  set_mErrorCode (mErrorCode s) s = s.
Proof using Type.
  now destruct s.
Qed.

Lemma setErrors_setError (errors : list int) (s : Script) :
  setErrors errors s = setError (firstFailure errors) s.
Proof using Type.
  revert s. induction errors as [|e errors IH]; intros s.
  - unfold firstFailure. simpl. now rewrite setError_success.
  - change (setErrors (e :: errors) s) with (setErrors errors (setError e s)).
    rewrite IH, firstFailure_cons.
    destruct (Z.eqb_spec e BCC_NO_ERROR) as [->|He].
    + now rewrite setError_success.
    + now apply setError_absorbed.
Qed.

Lemma getError_setErrors_state (errors : list int) (s : Script) :
  snd (getError (setErrors errors s)) = snd (getError s).
Proof using Type.
  rewrite setErrors_setError.
  destruct (setError_cases (firstFailure errors) s)
    as [(_ & _ & E)|(_ & E)]; rewrite E; reflexivity.
Qed.

Lemma getError_setErrors_clean (errors : list int) (s : Script) :
  mErrorCode s = BCC_NO_ERROR ->
  getError (setErrors errors s) = (firstFailure errors, s).
Proof using Type.
  intros Hs.
  rewrite (surjective_pairing (getError (setErrors errors s))).
  rewrite getError_setErrors_state. f_equal.
  - rewrite setErrors_setError. simpl.
    destruct (setError_cases (firstFailure errors) s)
      as [(_ & _ & E)|(Hn & E)]; rewrite E; simpl.
    + reflexivity.
    + rewrite Hs.
      destruct (Z.eq_dec (firstFailure errors) BCC_NO_ERROR) as [Hf|Hf].
      * now rewrite Hf.
      * exfalso. apply Hn. split; assumption.
  - simpl. rewrite <- Hs. apply set_mErrorCode_same.
Qed.

(** X1. A run of [setError] calls amounts to the single call that reports the
    first failure of the run (the success code when the run has none). *)
Theorem setErrors_fuse (errors : list int) (s : Script) :
  setErrors errors s = setError (firstFailure errors) s.
Proof using Type.
  apply setErrors_setError.
Qed.

(** X2. [getError] erases whatever was reported: the Script it leaves after
    any run of [setError] calls is the one it leaves without the run, and
    when no error was pending before the run that Script is the original one
    and the code read is the first failure of the run. *)
Theorem getError_erases_reports (errors : list int) (s : Script) :
  snd (getError (setErrors errors s)) = snd (getError s)
  /\ (mErrorCode s = BCC_NO_ERROR ->
      getError (setErrors errors s) = (firstFailure errors, s)).
Proof using Type.
  split.
  - apply getError_setErrors_state.
  - apply getError_setErrors_clean.
Qed.

(** X3. Errors do not leak from one report-and-read cycle into the next:
    starting with no error pending, every [getError] returns the first
    failure of its own run and the Script ends as it started. *)
Theorem reportCycles_independent (runs : list (list int)) (s : Script) :
  mErrorCode s = BCC_NO_ERROR ->
  reportCycles runs s = (map firstFailure runs, s).
Proof using Type.
  intros Hs. induction runs as [|run rest IH].
  - reflexivity.
  - cbn [reportCycles].
    rewrite (getError_setErrors_clean run s Hs). now rewrite IH.
Qed.

(** ** Interleaving the inline mutators *)

Lemma setError_markExternalSymbol (error : int) (name : string) (s : Script) :
  setError error (markExternalSymbol name s)
  = markExternalSymbol name (setError error s).
Proof using Type.
  unfold setError. simpl.
  now destruct ((mErrorCode s =? BCC_NO_ERROR)%Z
                && negb (error =? BCC_NO_ERROR)%Z).
Qed.

Lemma setErrors_markExternalSymbol (errors : list int) (name : string)
  (s : Script) :
  setErrors errors (markExternalSymbol name s)
  = markExternalSymbol name (setErrors errors s).
Proof using Type.
  revert s. induction errors as [|e errors IH]; intros s.
  - reflexivity.
  - change (setErrors (e :: errors) (markExternalSymbol name s))
      with (setErrors errors (setError e (markExternalSymbol name s))).
    now rewrite setError_markExternalSymbol, IH.
Qed.

Lemma setErrors_allowList (errors : list int) (s : Script) :
  mUserDefinedExternalSymbols (setErrors errors s)
  = mUserDefinedExternalSymbols s.
Proof using Type.
  rewrite setErrors_setError.
  destruct (setError_cases (firstFailure errors) s)
    as [(_ & _ & E)|(_ & E)]; rewrite E; reflexivity.
Qed.

Lemma markExternalSymbols_mErrorCode (names : list string) (s : Script) :
  mErrorCode (markExternalSymbols names s) = mErrorCode s.
Proof using Type.
  revert s. induction names as [|n names IH]; intros s.
  - reflexivity.
  - change (markExternalSymbols (n :: names) s)
      with (markExternalSymbols names (markExternalSymbol n s)).
    now rewrite IH.
Qed.

Lemma runInline_spec (calls : list InlineCall) (s : Script) :
  runInline calls s
  = markExternalSymbols (markedNames calls)
      (setErrors (reportedErrors calls) s).
Proof using Type.
  revert s.
  induction calls as [|[name|error] rest IH]; intros t.
  - reflexivity.
  - change (runInline (DoMarkExternalSymbol name :: rest) t)
      with (runInline rest (markExternalSymbol name t)).
    rewrite IH. simpl markedNames. simpl reportedErrors.
    now rewrite setErrors_markExternalSymbol.
  - change (runInline (DoSetError error :: rest) t)
      with (runInline rest (setError error t)).
    now rewrite IH.
Qed.

(** X4. [markExternalSymbol] and [setError] do not interfere: any
    interleaving of their calls gives the Script obtained by first reporting
    the codes and then marking the names, each in their own order; on a fresh
    Script the allow-list is then the names marked and [getError] returns the
    first failure reported. *)
Theorem inline_mutators_interleave (calls : list InlineCall) (s : Script) :
  runInline calls s
  = markExternalSymbols (markedNames calls)
      (setErrors (reportedErrors calls) s)
  /\ (forall p : Process,
        getUserDefinedExternalSymbols (runInline calls (snd (Script_new p)))
        = markedNames calls
        /\ fst (getError (runInline calls (snd (Script_new p))))
           = firstFailure (reportedErrors calls)).
Proof using Type.
  split; [apply runInline_spec|].
  intros p. rewrite runInline_spec. split.
  - rewrite markExternalSymbols_spec.
    unfold getUserDefinedExternalSymbols. now rewrite setErrors_allowList.
  - unfold getError at 1. simpl fst.
    rewrite markExternalSymbols_mErrorCode.
    pose proof (getError_setErrors_clean (reportedErrors calls)
                  (snd (Script_new p)) eq_refl) as Hr.
    apply (f_equal fst) in Hr. exact Hr.
Qed.

(** ** Cache paths as strings *)

Lemma append_nil_r (a : string) : a ++ "" = a.
Proof using Type.
  induction a as [|ch a IH]; simpl; [reflexivity | now rewrite IH].
Qed.

Lemma append_inj_l (a b c : string) : a ++ b = a ++ c -> b = c.
Proof using Type.
  induction a as [|ch a IH]; simpl; intros H.
  - exact H.
  - injection H as H. now apply IH.
Qed.

Lemma rev_chars_append (a b : string) :
  rev (list_ascii_of_string (a ++ b))
  = (rev (list_ascii_of_string b) ++ rev (list_ascii_of_string a))%list.
Proof using Type.
  rewrite <- rev_app_distr. f_equal.
  induction a as [|ch a IH]; simpl; [reflexivity | now rewrite IH].
Qed.

Lemma append_inj_r (a b c : string) : a ++ c = b ++ c -> a = b.
Proof using Type.
  intros H.
  apply (f_equal (fun x => rev (list_ascii_of_string x))) in H.
  rewrite !rev_chars_append in H. apply app_inv_head in H.
  apply (f_equal (@rev ascii)) in H. rewrite !rev_involutive in H.
  apply (f_equal string_of_list_ascii) in H.
  now rewrite !string_of_list_ascii_of_string in H.
Qed.

Lemma prefix_append (a b : string) : prefix a (a ++ b) = true.
Proof using Type.
  induction a as [|ch a IH]; simpl.
  - now destruct b.
  - destruct (ascii_dec ch ch) as [_|H]; [exact IH | now elim H].
Qed.

(** Two strings that end differently are different: compare them from the
    last character backwards. *)
Ltac ends_differently H :=
  apply (f_equal (fun x => rev (list_ascii_of_string x))) in H;
  rewrite !rev_chars_append in H; simpl in H; discriminate H.

(** X5. With [USE_MCJIT], the files of a relocatable or executable Script
    never coincide with those of a shared-object Script, whatever their
    directories and names: neither the object paths nor the info paths can be
    equal. *)
Theorem object_kinds_never_collide (NDEBUG NDEBUG' : bool) (s t : Script) :
  mObjectType s = ScriptObject.Relocatable
  \/ mObjectType s = ScriptObject.Executable ->
  mObjectType t = ScriptObject.SharedObject ->
  getCachedObjectPath USE_MCJIT NDEBUG s
  <> getCachedObjectPath USE_MCJIT NDEBUG' t
  /\ getCacheInfoPath USE_MCJIT NDEBUG s
     <> getCacheInfoPath USE_MCJIT NDEBUG' t.
Proof using Type.
  intros Hs Ht. unfold getCacheInfoPath, getCachedObjectPath. rewrite Ht.
  destruct Hs as [Hs|Hs]; rewrite Hs; simpl;
    (split; intros H; injection H as H; ends_differently H).
Qed.

(** X6. A sidecar is never mistaken for an object: in either naming scheme,
    an info path differs from the object path of every Script whose path
    carries a suffix (any Script under [USE_OLD_JIT], one of known kind under
    [USE_MCJIT]). *)
Theorem info_path_is_no_object_path
  (jit : JitBackend) (NDEBUG NDEBUG' : bool) (s t : Script) (p q : string) :
  jit = USE_OLD_JIT \/ mObjectType t <> ScriptObject.Unknown ->
  getCacheInfoPath jit NDEBUG s = Returns p ->
  getCachedObjectPath jit NDEBUG' t = Returns q ->
  p <> q.
Proof using Type.
  intros Hk Hp Hq Heq. subst q. revert Hp Hq.
  unfold getCacheInfoPath, getCachedObjectPath.
  destruct jit.
  - simpl. intros Hp Hq. injection Hp as Hp. injection Hq as Hq.
    rewrite <- Hp in Hq. ends_differently Hq.
  - destruct Hk as [Hk|Hk]; [discriminate|].
    destruct (mObjectType t); [now elim Hk| | |];
      destruct (mObjectType s); try destruct NDEBUG; simpl;
      intros Hp Hq; try discriminate;
      injection Hp as Hp; injection Hq as Hq;
      rewrite <- Hp in Hq; ends_differently Hq.
Qed.

(** X7. The only way a path member fails is the assertion of the
    [USE_MCJIT] switch, with assertions compiled in and the kind [Unknown];
    [getCacheInfoPath] fails exactly when [getCachedObjectPath] does, with
    the same message. *)
Theorem path_failure_characterised
  (jit : JitBackend) (NDEBUG : bool) (s : Script) (message : string) :
  (getCachedObjectPath jit NDEBUG s = AssertionFailed message <->
   jit = USE_MCJIT /\ NDEBUG = false
   /\ mObjectType s = ScriptObject.Unknown
   /\ message = "Unknown object type!")
  /\ (getCacheInfoPath jit NDEBUG s = AssertionFailed message <->
      getCachedObjectPath jit NDEBUG s = AssertionFailed message).
Proof using Type.
  unfold getCacheInfoPath, getCachedObjectPath.
  destruct jit; [|destruct (mObjectType s); [destruct NDEBUG| | |]]; simpl;
    (split; split; intros H);
    try discriminate H;
    try (destruct H as (H1 & H2 & H3 & H4); discriminate);
    try exact H.
  - injection H as H. now repeat split.
  - destruct H as (_ & _ & _ & ->). reflexivity.
Qed.

(** X8. Every path returned starts with the cache directory string, and the
    info path is the object path properly extended: the object path is a
    prefix of it and the two differ. *)
Theorem paths_extend_directory
  (jit : JitBackend) (NDEBUG : bool) (s : Script) (q : string) :
  getCachedObjectPath jit NDEBUG s = Returns q ->
  prefix (mCacheDir s) q = true
  /\ exists p : string,
       getCacheInfoPath jit NDEBUG s = Returns p
       /\ prefix q p = true
       /\ p <> q.
Proof using Type.
  intros Hq.
  assert (Hinfo : exists suffix,
             suffix <> "" /\
             getCacheInfoPath jit NDEBUG s = Returns (q ++ suffix)).
  { unfold getCacheInfoPath. rewrite Hq.
    destruct jit; simpl; eexists; (split; [|reflexivity]); discriminate. }
  split.
  - revert Hq. unfold getCachedObjectPath.
    destruct jit; [|destruct (mObjectType s); [destruct NDEBUG| | |]]; simpl;
      intros Hq; try discriminate Hq; injection Hq as <-;
      rewrite ?append_assoc; apply prefix_append.
  - destruct Hinfo as (suffix & Hne & Hp).
    exists (q ++ suffix). split; [exact Hp|]. split.
    + apply prefix_append.
    + intros H. apply Hne. apply (append_inj_l q).
      now rewrite append_nil_r.
Qed.

(** X9. Only the concatenation of directory and name matters: moving
    characters from the end of the directory to the front of the name
    changes neither path, in either naming scheme. *)
Theorem paths_depend_on_concatenation
  (jit : JitBackend) (NDEBUG : bool) (D1 D2 N : string)
  (K : ScriptObject.ObjectType) (s : Script) :
  getCachedObjectPath jit NDEBUG (with_cache (D1 ++ D2) N K s)
  = getCachedObjectPath jit NDEBUG (with_cache D1 (D2 ++ N) K s)
  /\ getCacheInfoPath jit NDEBUG (with_cache (D1 ++ D2) N K s)
     = getCacheInfoPath jit NDEBUG (with_cache D1 (D2 ++ N) K s).
Proof using Type.
  unfold getCacheInfoPath, getCachedObjectPath. simpl.
  now rewrite (append_assoc D1 D2 N).
Qed.

(** X10. Within one directory and for one object kind, distinct cache names
    never share a file: two Scripts that return the same object path, or the
    same info path, have the same cache name. *)
Theorem paths_injective_in_name
  (jit : JitBackend) (NDEBUG : bool) (s t : Script) (q : string) :
  mCacheDir s = mCacheDir t ->
  mObjectType s = mObjectType t ->
  (getCachedObjectPath jit NDEBUG s = Returns q
   /\ getCachedObjectPath jit NDEBUG t = Returns q)
  \/ (getCacheInfoPath jit NDEBUG s = Returns q
      /\ getCacheInfoPath jit NDEBUG t = Returns q) ->
  mCacheName s = mCacheName t.
Proof using Type.
  intros HD HK.
  unfold getCacheInfoPath, getCachedObjectPath. rewrite HD, HK.
  intros [[Hs Ht]|[Hs Ht]]; revert Hs Ht;
    (destruct jit; [|destruct (mObjectType t); [destruct NDEBUG| | |]]);
    simpl; intros Hs Ht; try discriminate Hs;
    injection Hs as Hs; injection Ht as Ht; rewrite <- Ht in Hs;
    repeat apply append_inj_r in Hs; now apply append_inj_l in Hs.
Qed.

(** ** The allow-list as a log *)

(** X11. The allow-list only grows at its end: after any run of
    [markExternalSymbol] calls every earlier entry is still at its index,
    the new names follow in call order, and nothing is deduplicated (the
    occurrences of a name are the earlier ones plus those of the run). *)
Theorem markExternalSymbols_keeps_entries (names : list string) (s : Script) :
  (forall (i : nat) (x : string),
     nth_error (getUserDefinedExternalSymbols s) i = Some x ->
     nth_error
       (getUserDefinedExternalSymbols (markExternalSymbols names s)) i
     = Some x)
  /\ (forall j : nat,
        nth_error
          (getUserDefinedExternalSymbols (markExternalSymbols names s))
          (List.length (getUserDefinedExternalSymbols s) + j)
        = nth_error names j)
  /\ (forall x : string,
        count_occ string_dec
          (getUserDefinedExternalSymbols (markExternalSymbols names s)) x
        = count_occ string_dec (getUserDefinedExternalSymbols s) x
          + count_occ string_dec names x).
Proof using Type.
  rewrite markExternalSymbols_spec. split; [|split].
  - intros i x H. rewrite nth_error_app1; [exact H|].
    apply nth_error_Some. now rewrite H.
  - intros j. rewrite nth_error_app2 by apply Nat.le_add_r.
    f_equal. lia.
  - intros x. apply count_occ_app.
Qed.

(** ** What the inline mutators never do *)

Lemma markExternalSymbols_frame (names : list string) (s : Script) :
  mStatus (markExternalSymbols names s) = mStatus s
  /\ mObjectType (markExternalSymbols names s) = mObjectType s
  /\ mUnit (markExternalSymbols names s) = mUnit s
  /\ mCacheDir (markExternalSymbols names s) = mCacheDir s
  /\ mCacheName (markExternalSymbols names s) = mCacheName s
  /\ mSourceList (markExternalSymbols names s) = mSourceList s.
Proof using Type.
  revert s. induction names as [|n names IH]; intros s.
  - repeat split.
  - change (markExternalSymbols (n :: names) s)
      with (markExternalSymbols names (markExternalSymbol n s)).
    destruct (IH (markExternalSymbol n s)) as (H1 & H2 & H3 & H4 & H5 & H6).
    rewrite H1, H2, H3, H4, H5, H6. repeat split.
Qed.

(** X12. No sequence of [markExternalSymbol], [setError] and a closing
    [getError] prepares a Script: status, object kind, compiled unit, cache
    strings and sources stay as they were, so on a freshly constructed Script
    the [USE_MCJIT] path derivation still stops at its assertion. *)
Theorem inline_mutators_never_prepare (calls : list InlineCall) (s : Script) :
  (forall s1 : Script,
     s1 = runInline calls s \/ s1 = snd (getError (runInline calls s)) ->
     mStatus s1 = mStatus s
     /\ mObjectType s1 = mObjectType s
     /\ mUnit s1 = mUnit s
     /\ mCacheDir s1 = mCacheDir s
     /\ mCacheName s1 = mCacheName s
     /\ mSourceList s1 = mSourceList s)
  /\ (forall p : Process,
        getCachedObjectPath USE_MCJIT false
          (runInline calls (snd (Script_new p)))
        = AssertionFailed "Unknown object type!").
Proof using Type.
  assert (H : forall t,
             mStatus (runInline calls t) = mStatus t
             /\ mObjectType (runInline calls t) = mObjectType t
             /\ mUnit (runInline calls t) = mUnit t
             /\ mCacheDir (runInline calls t) = mCacheDir t
             /\ mCacheName (runInline calls t) = mCacheName t
             /\ mSourceList (runInline calls t) = mSourceList t).
  { intros t.
    rewrite runInline_spec.
    destruct (markExternalSymbols_frame (markedNames calls)
                (setErrors (reportedErrors calls) t))
      as (H1 & H2 & H3 & H4 & H5 & H6).
    rewrite H1, H2, H3, H4, H5, H6, setErrors_setError.
    destruct (setError_cases (firstFailure (reportedErrors calls)) t)
      as [(_ & _ & E')|(_ & E')]; rewrite E'; repeat split. }
  split.
  - intros s1 [->| ->]; [apply H|]. simpl. apply H.
  - intros p. unfold getCachedObjectPath.
    destruct (H (snd (Script_new p))) as (_ & H2 & _).
    rewrite H2. reflexivity.
Qed.

End ScriptMembers.

(** * The properties on the sample inputs *)

Local Open Scope Z_scope.

Lemma setError_first_error_wins_witness :
  ((mErrorCode sample_script = 0 /\ 7 <> 0)
   /\ mErrorCode (setError 0 7 sample_script) = 7)%Z
  /\ (mErrorCode (setError 0 7 sample_script) <> 0
      /\ mErrorCode (setErrors 0 [9; 0; 11] (setError 0 7 sample_script))
         = mErrorCode (setError 0 7 sample_script))%Z.
Proof.
  split.
  - split.
    + split; [reflexivity | discriminate].
    + apply (setError_first_error_wins 0%Z sample_script 7%Z).
      split; [reflexivity | discriminate].
  - split.
    + discriminate.
    + apply (setError_first_error_wins 0%Z (setError 0 7 sample_script) 7%Z).
      discriminate.
Defined.

Lemma getError_read_and_clear_witness :
  (mErrorCode sample_script = 0 /\ 3 <> 0 /\ 5 <> 0 /\ 3 <> 5)%Z
  /\ (fst (getError 0 (setError 0 5 (setError 0 3 sample_script))) = 3
      /\ fst (getError 0
                (snd (getError 0
                        (setError 0 5 (setError 0 3 sample_script))))) = 0)%Z.
Proof.
  split.
  - repeat split; discriminate.
  - apply (getError_read_and_clear 0%Z sample_script);
      [reflexivity | discriminate | discriminate | discriminate].
Defined.

Lemma error_members_frame_witness :
  setError 0 7 sample_script = setError 0 7 sample_script
  /\ mStatus (setError 0 7 sample_script) = mStatus sample_script
  /\ mUserDefinedExternalSymbols (setError 0 7 sample_script)
     = mUserDefinedExternalSymbols sample_script.
Proof.
  split; [reflexivity|].
  destruct (error_members_frame 0%Z sample_script 7%Z) as [H _].
  destruct (H (setError 0 7 sample_script) (or_introl eq_refl))
    as (H1 & _ & _ & _ & _ & _ & _ & H8 & _).
  split; [exact H1 | exact H8].
Defined.

Lemma cache_paths_derivation_witness :
  mObjectType (with_cache "/data/cache/" "lib" ScriptObject.SharedObject
                 sample_script) = ScriptObject.SharedObject
  /\ getCachedObjectPath USE_MCJIT false
       (with_cache "/data/cache/" "lib" ScriptObject.SharedObject
          sample_script)
     = Returns "/data/cache/lib.so".
Proof.
  split; [reflexivity|].
  destruct (cache_paths_derivation false
              (with_cache "/data/cache/" "lib" ScriptObject.SharedObject
                 sample_script)) as (_ & Hso & _).
  exact (Hso eq_refl).
Defined.

(** C3 as worded fails: directory [d], name [n], relocatable: the member
    returns [dn.o], the worded derivation [d/n.o]. *)
Lemma derivePaths_separator_counterexample :
  getCachedObjectPath USE_MCJIT false
    (with_cache "d" "n" ScriptObject.Relocatable sample_script)
  = Returns "dn.o"
  /\ getCachedObjectPath USE_MCJIT false
       (with_cache "d" "n" ScriptObject.Relocatable sample_script)
     <> Returns (fst (derivePaths_spec "d" "n" ScriptObject.Relocatable)).
Proof.
  split; [reflexivity | discriminate].
Defined.

Lemma getCachedObjectPath_assertion_witness :
  (mObjectType (with_cache "/data/cache/" "lib" ScriptObject.Executable
                  sample_script) = ScriptObject.Executable
   /\ exists path : string,
        getCachedObjectPath USE_MCJIT false
          (with_cache "/data/cache/" "lib" ScriptObject.Executable
             sample_script) = Returns path)
  /\ (mObjectType (with_cache "/data/cache/" "lib" ScriptObject.Unknown
                     sample_script) = ScriptObject.Unknown
      /\ getCachedObjectPath USE_MCJIT false
           (with_cache "/data/cache/" "lib" ScriptObject.Unknown
              sample_script) = AssertionFailed "Unknown object type!").
Proof.
  split.
  - split; [reflexivity|].
    apply (getCachedObjectPath_assertion
             (with_cache "/data/cache/" "lib" ScriptObject.Executable
                sample_script)).
    right; left; reflexivity.
  - split; [reflexivity|].
    apply (getCachedObjectPath_assertion
             (with_cache "/data/cache/" "lib" ScriptObject.Unknown
                sample_script)).
    reflexivity.
Defined.

Lemma unprepared_introspection_witness :
  mStatus sample_script = ScriptStatus.Unknown
  /\ answersNothing sample_script.
Proof.
  split; [reflexivity|].
  apply (unprepared_introspection 0%Z sample_script). reflexivity.
Defined.

Lemma sample_error_code_failure (kind : ErrorKind) :
  kind <> NoError -> sample_error_code kind <> 0%Z.
Proof.
  destruct kind; intros H; try discriminate. exfalso. now apply H.
Defined.

Lemma prepare_failure_atomic_witness :
  (mStatus sample_script = ScriptStatus.Unknown
   /\ prepare 0 USE_MCJIT false sample_error_code refusing_backend
        refusing_linker read_only_storage Reloc.PIC_
        (PrepareExecutable (Some "/data/cache/") (Some "lib") 0)
        sample_world sample_script
      = (Failed BackendCompileFailure, sample_world,
         set_mErrorCode 3 sample_script))
  /\ (mStatus (set_mErrorCode 3 sample_script) = ScriptStatus.Unknown
      /\ mObjectType (set_mErrorCode 3 sample_script)
         = mObjectType sample_script
      /\ mUnit (set_mErrorCode 3 sample_script) = mUnit sample_script).
Proof.
  split.
  - split; reflexivity.
  - destruct (prepare_failure_atomic 0%Z USE_MCJIT false sample_error_code
                sample_error_code_failure refusing_backend refusing_linker
                read_only_storage Reloc.PIC_
                (PrepareExecutable (Some "/data/cache/") (Some "lib") 0)
                sample_world sample_script BackendCompileFailure sample_world
                (set_mErrorCode 3 sample_script) eq_refl eq_refl)
      as (H1 & _ & _ & _ & H5 & H6 & _).
    split; [exact H1 | split; [exact H5 | exact H6]].
Defined.

Lemma status_invariant_witness :
  reachable 0 USE_MCJIT false sample_error_code accepting_backend
    refusing_linker read_only_storage Reloc.PIC_ sample_world
    (set_mStatus ScriptStatus.Compiled
       (set_mObjectType ScriptObject.Executable
          (set_mUnit (mCompiled sample_compiled) sample_script)))
  /\ ((exists c,
         mUnit (set_mStatus ScriptStatus.Compiled
                  (set_mObjectType ScriptObject.Executable
                     (set_mUnit (mCompiled sample_compiled) sample_script)))
         = mCompiled c)
      /\ mObjectType
           (set_mStatus ScriptStatus.Compiled
              (set_mObjectType ScriptObject.Executable
                 (set_mUnit (mCompiled sample_compiled) sample_script)))
         <> ScriptObject.Unknown).
Proof.
  assert (Hr : reachable 0 USE_MCJIT false sample_error_code accepting_backend
                 refusing_linker read_only_storage Reloc.PIC_ sample_world
                 (set_mStatus ScriptStatus.Compiled
                    (set_mObjectType ScriptObject.Executable
                       (set_mUnit (mCompiled sample_compiled)
                          sample_script)))).
  { exact (reachable_call 0 USE_MCJIT false sample_error_code
             accepting_backend refusing_linker read_only_storage Reloc.PIC_
             (CallPrepare (PrepareExecutable None None 0))
             _ _
             (reachable_new 0 USE_MCJIT false sample_error_code
                accepting_backend refusing_linker read_only_storage
                Reloc.PIC_ sample_process (fun _ => None))). }
  split; [exact Hr|].
  destruct (status_invariant 0%Z USE_MCJIT false sample_error_code
              accepting_backend refusing_linker read_only_storage Reloc.PIC_)
    as [H _].
  destruct (H _ _ Hr) as [Hc _].
  exact (Hc eq_refl).
Defined.

(** ** The driver on the sample inputs *)

(** The Script after registering the sample bitcode as main source. *)
Example sample_addSourceBC :
  mSourceList
    (snd (addSourceBC 0 sample_error_code 0 "main" sample_bitcode 0
            sample_script))
  = [Some {| sourcePayload := Bitcode "main" sample_bitcode;
             sourceFlags := 0 |}; None]
  /\ fst (addSourceBC 0 sample_error_code 2 "main" sample_bitcode 0
            sample_script) = Failed InvalidSlot.
Proof. split; reflexivity. Qed.

(** A compilation that succeeds with caching requested writes the cache, and
    a second Script with the same sources then loads it: same bytes, status
    [Cached]. *)
Example sample_cache_round_trip :
  let run := prepare 0 USE_MCJIT false sample_error_code accepting_backend
               refusing_linker writable_storage Reloc.PIC_
               (PrepareExecutable (Some "/data/cache/") (Some "lib") 0) in
  let first := run sample_world sample_script in
  let second := run (snd (fst first)) sample_script in
  fst (fst first) = Success
  /\ mStatus (snd first) = ScriptStatus.Compiled
  /\ fst (fst second) = Success
  /\ mStatus (snd second) = ScriptStatus.Cached
  /\ getELF (snd second) = getELF (snd first)
  /\ getExportVarCount (snd second) = 1%nat
  /\ mCacheDir (snd second) = "/data/cache/".
Proof. vm_compute. repeat split. Qed.

(** With storage that cannot be written the same call fails and the Script
    keeps its status. *)
Example sample_cache_write_failure :
  prepare 0 USE_MCJIT false sample_error_code accepting_backend
    refusing_linker read_only_storage Reloc.PIC_
    (PrepareExecutable (Some "/data/cache/") (Some "lib") 0)
    sample_world sample_script
  = (Failed CacheWriteFailure, sample_world, set_mErrorCode 4 sample_script).
Proof. reflexivity. Qed.

(** A shared object built from sources: the relocatable step succeeds, the
    link step fails, and the call fails with the link error. *)
Example sample_link_failure :
  fst (fst (prepare 0 USE_MCJIT false sample_error_code accepting_backend
              refusing_linker writable_storage Reloc.PIC_
              (PrepareSharedObject None None None "/data/lib.so" 0)
              sample_world sample_script))
  = Failed LinkFailure
  /\ snd (prepare 0 USE_MCJIT false sample_error_code accepting_backend
            refusing_linker writable_storage Reloc.PIC_
            (PrepareSharedObject None None None "/data/lib.so" 0)
            sample_world sample_script)
     = set_mErrorCode 6 sample_script.
Proof. split; reflexivity. Qed.

(** ** The further properties on the sample inputs *)

Lemma getError_erases_reports_witness :
  mErrorCode sample_script = 0
  /\ getError 0 (setErrors 0 [0; 4; 9] sample_script) = (4, sample_script).
Proof.
  split; [reflexivity|].
  destruct (getError_erases_reports 0 [0; 4; 9] sample_script) as [_ H].
  exact (H eq_refl).
Defined.

Lemma reportCycles_independent_witness :
  mErrorCode sample_script = 0
  /\ reportCycles 0 [[0; 4; 9]; []; [7]] sample_script
     = ([4; 0; 7], sample_script).
Proof.
  split; [reflexivity|].
  exact (reportCycles_independent 0 [[0; 4; 9]; []; [7]] sample_script
           eq_refl).
Defined.

Lemma object_kinds_never_collide_witness :
  ((mObjectType (with_cache "/data/" "lib.s" ScriptObject.Relocatable
                   sample_script) = ScriptObject.Relocatable
    \/ mObjectType (with_cache "/data/" "lib.s" ScriptObject.Relocatable
                      sample_script) = ScriptObject.Executable)
   /\ mObjectType (with_cache "/data/" "lib" ScriptObject.SharedObject
                     sample_script) = ScriptObject.SharedObject)
  /\ getCachedObjectPath USE_MCJIT false
       (with_cache "/data/" "lib.s" ScriptObject.Relocatable sample_script)
     <> getCachedObjectPath USE_MCJIT false
          (with_cache "/data/" "lib" ScriptObject.SharedObject sample_script).
Proof.
  split.
  - split; [left; reflexivity | reflexivity].
  - apply (object_kinds_never_collide false false
             (with_cache "/data/" "lib.s" ScriptObject.Relocatable
                sample_script)
             (with_cache "/data/" "lib" ScriptObject.SharedObject
                sample_script) (or_introl eq_refl) eq_refl).
Defined.

Lemma info_path_is_no_object_path_witness :
  (mObjectType (with_cache "/data/" "lib.o.inf" ScriptObject.Relocatable
                  sample_script) <> ScriptObject.Unknown
   /\ getCacheInfoPath USE_MCJIT false
        (with_cache "/data/" "lib" ScriptObject.Relocatable sample_script)
      = Returns "/data/lib.o.info"
   /\ getCachedObjectPath USE_MCJIT false
        (with_cache "/data/" "lib.o.inf" ScriptObject.Relocatable
           sample_script)
      = Returns "/data/lib.o.inf.o")
  /\ "/data/lib.o.info" <> "/data/lib.o.inf.o".
Proof.
  split.
  - split; [discriminate | split; reflexivity].
  - apply (info_path_is_no_object_path USE_MCJIT false false
             (with_cache "/data/" "lib" ScriptObject.Relocatable
                sample_script)
             (with_cache "/data/" "lib.o.inf" ScriptObject.Relocatable
                sample_script)).
    + right. discriminate.
    + reflexivity.
    + reflexivity.
Defined.

Lemma path_failure_characterised_witness :
  (USE_MCJIT = USE_MCJIT /\ false = false
   /\ mObjectType sample_script = ScriptObject.Unknown
   /\ "Unknown object type!" = "Unknown object type!")
  /\ getCacheInfoPath USE_MCJIT false sample_script
     = AssertionFailed "Unknown object type!".
Proof.
  split.
  - repeat split.
  - destruct (path_failure_characterised USE_MCJIT false sample_script
                "Unknown object type!") as [[_ Hobj] [_ Hinfo]].
    apply Hinfo. apply Hobj. repeat split.
Defined.

Lemma paths_extend_directory_witness :
  getCachedObjectPath USE_OLD_JIT false
    (with_cache "/data/" "lib" ScriptObject.Executable sample_script)
  = Returns "/data/lib.jit-image"
  /\ prefix "/data/" "/data/lib.jit-image" = true.
Proof.
  split; [reflexivity|].
  apply (paths_extend_directory USE_OLD_JIT false
           (with_cache "/data/" "lib" ScriptObject.Executable sample_script)
           "/data/lib.jit-image" eq_refl).
Defined.

Lemma paths_injective_in_name_witness :
  (mCacheDir (with_cache "/data/" "lib" ScriptObject.Relocatable
                sample_script)
   = mCacheDir (with_cache "/data/" "lib" ScriptObject.Relocatable
                  (setError 0 5 sample_script))
   /\ mObjectType (with_cache "/data/" "lib" ScriptObject.Relocatable
                     sample_script)
      = mObjectType (with_cache "/data/" "lib" ScriptObject.Relocatable
                       (setError 0 5 sample_script))
   /\ getCachedObjectPath USE_MCJIT false
        (with_cache "/data/" "lib" ScriptObject.Relocatable sample_script)
      = Returns "/data/lib.o"
   /\ getCachedObjectPath USE_MCJIT false
        (with_cache "/data/" "lib" ScriptObject.Relocatable
           (setError 0 5 sample_script))
      = Returns "/data/lib.o")
  /\ mCacheName (with_cache "/data/" "lib" ScriptObject.Relocatable
                   sample_script)
     = mCacheName (with_cache "/data/" "lib" ScriptObject.Relocatable
                     (setError 0 5 sample_script)).
Proof.
  split.
  - repeat split.
  - apply (paths_injective_in_name USE_MCJIT false
             (with_cache "/data/" "lib" ScriptObject.Relocatable
                sample_script)
             (with_cache "/data/" "lib" ScriptObject.Relocatable
                (setError 0 5 sample_script))
             "/data/lib.o" eq_refl eq_refl).
    left. split; reflexivity.
Defined.

Lemma markExternalSymbols_keeps_entries_witness :
  nth_error
    (getUserDefinedExternalSymbols (markExternalSymbol "root" sample_script))
    0 = Some "root"
  /\ nth_error
       (getUserDefinedExternalSymbols
          (markExternalSymbols ["init"; "root"]
             (markExternalSymbol "root" sample_script)))
       0 = Some "root".
Proof.
  split; [reflexivity|].
  destruct (markExternalSymbols_keeps_entries ["init"; "root"]
              (markExternalSymbol "root" sample_script)) as [H _].
  exact (H 0%nat "root" eq_refl).
Defined.

Lemma inline_mutators_never_prepare_witness :
  runInline 0 [DoSetError 4; DoMarkExternalSymbol "root"] sample_script
  = runInline 0 [DoSetError 4; DoMarkExternalSymbol "root"] sample_script
  /\ mStatus
       (runInline 0 [DoSetError 4; DoMarkExternalSymbol "root"]
          sample_script)
     = mStatus sample_script.
Proof.
  split; [reflexivity|].
  destruct (inline_mutators_never_prepare 0
              [DoSetError 4; DoMarkExternalSymbol "root"] sample_script)
    as [H _].
  destruct (H _ (or_introl eq_refl)) as [H1 _]. exact H1.
Defined.
